(** * SimpleMonitor network monitors: a shallow embedding of
      [Monitors/network.py] and the properties of its four probes.

    The file follows the source top to bottom: the slice of the Python
    runtime the monitors rely on ([Py]), the result recorder inherited from
    the base class ([Recorder]), then one module per monitor class
    ([MonitorHTTP], [MonitorTCP], [MonitorHost], [MonitorDNS]) holding its
    constructor, [run_test] and [get_params], and last the theorems. *)

From Stdlib Require Import ZArith String Ascii List Bool Lia DecimalString.
From Stdlib Require DecimalPos DecimalZ.
From Stdlib Require Floats Uint63.
From stdpp Require Import base option strings gmap.

Open Scope string_scope.
Open Scope Z_scope.

(* ===================================================================== *)
(** * The Python runtime, as far as the monitors use it                   *)
(* ===================================================================== *)

Module Py.

(** The source runs unchanged on CPython 2 and CPython 3; the two differ in
    four places that the monitors touch: [str(bytes)], ordering a [str]
    against a number, the blanks that a configuration value strips, and the
    underscores [int] accepts between digits. *)
Inductive version := Py2 | Py3.

(** Exception classes that reach one of the handlers of the source.  All of
    them derive from [Exception]; [RequestException] is the root of the
    faults of the [requests] library. *)
Inductive exc_class :=
  | RuntimeError | KeyError | ValueError | TypeError | IndexError
  | OSError | CalledProcessError | UnicodeDecodeError
  | RequestException | ReError | OtherException.

(** An exception object: its class and [str(e)]. *)
Record exc := Exc { exc_type : exc_class; exc_str : string }.

Definition is_RequestException (e : exc) : bool :=
  match exc_type e with RequestException => true | _ => false end.

(** The outcome of evaluating an expression: a value, or a raised exception. *)
Inductive result (A : Type) :=
  | Ok (a : A)
  | Raise (e : exc).
Arguments Ok {A} a.
Arguments Raise {A} e.

Definition rbind {A B} (r : result A) (k : A -> result B) : result B :=
  match r with Ok a => k a | Raise e => Raise e end.

(** [try: r  except: h] for a pure expression. *)
Definition rcatch {A} (r : result A) (h : exc -> result A) : result A :=
  match r with Ok a => Ok a | Raise e => h e end.

Declare Scope result_scope.
Delimit Scope result_scope with result.
Notation "x <- r ;; k" := (rbind r (fun x => k))
  (at level 100, r at next level, right associativity) : result_scope.

(** ** Characters *)

Definition code (c : ascii) : Z := Z.of_N (N_of_ascii c).
Definition chr (n : Z) : ascii := ascii_of_N (Z.to_N n).

Definition LF : ascii := chr 10.
Definition quote1 : ascii := chr 39.
Definition quote2 : ascii := chr 34.
Definition backslash : ascii := chr 92.

(** [bytes.isspace] / Python 2 [str.isspace]: the six ASCII blanks. *)
Definition isspace_bytes (c : ascii) : bool :=
  let n := code c in ((9 <=? n) && (n <=? 13)) || (n =? 32).

(** [str.isspace] on text, for the code points below 256: the ASCII blanks,
    the four information separators, NEL and the no-break space. *)
Definition isspace_text (c : ascii) : bool :=
  let n := code c in
  isspace_bytes c || ((28 <=? n) && (n <=? 31)) || (n =? 133) || (n =? 160).

(** ** Strings *)

(** [s * n]: sequence repetition. *)
Fixpoint str_mul (s : string) (n : nat) : string :=
  match n with
  | O => ""
  | S n' => s +:+ str_mul s n'
  end.

(** [s.startswith(p)] *)
Fixpoint startswith (p s : string) : bool :=
  match p, s with
  | EmptyString, _ => true
  | String a p', String b s' => Ascii.eqb a b && startswith p' s'
  | String _ _, EmptyString => false
  end.

(** [s.split(sep)] for a separator of one character: never an empty list,
    and the empty string splits into one empty field. *)
Fixpoint split (sep : ascii) (s : string) : list string :=
  match s with
  | EmptyString => [ "" ]
  | String c s' =>
      if Ascii.eqb c sep then "" :: split sep s'
      else match split sep s' with
           | field :: rest => String c field :: rest
           | [] => [ String c "" ]
           end
  end.

(** [s.lstrip()], [s.rstrip()] and [s.strip()] for a given class of blanks. *)
Fixpoint lstrip (blank : ascii -> bool) (s : string) : string :=
  match s with
  | EmptyString => ""
  | String c s' => if blank c then lstrip blank s' else s
  end.

Fixpoint rstrip (blank : ascii -> bool) (s : string) : string :=
  match s with
  | EmptyString => ""
  | String c s' =>
      match rstrip blank s' with
      | EmptyString => if blank c then "" else String c ""
      | r => String c r
      end
  end.

Definition strip (blank : ascii -> bool) (s : string) : string :=
  rstrip blank (lstrip blank s).

(** [s.lower()], on the ASCII letters. *)
Definition lower_char (c : ascii) : ascii :=
  let n := code c in
  if (65 <=? n) && (n <=? 90) then chr (n + 32) else c.

Fixpoint lower (s : string) : string :=
  match s with
  | EmptyString => ""
  | String c s' => String (lower_char c) (lower s')
  end.

(** Truth value of a string: the empty string is false. *)
Definition truthy (s : string) : bool := negb (String.eqb s "").

(** [str(x)] for an attribute that is [None] or a string. *)
Definition str_opt (o : option string) : string :=
  match o with Some s => s | None => "None" end.

(** [part in s], as a proposition: [s] reads [pre + part + post]. *)
Definition occurs_in (part s : string) : Prop :=
  exists pre post : string, s = pre +:+ part +:+ post.

(** ** Integers *)

(** [str(n)] for an [int]. *)
Definition str_int (n : Z) : string := NilZero.string_of_int (Z.to_int n).

(** [str(l)] for a list of [int]: bracketed, comma and blank between.
    The elements are written as [str] writes them; on Python 2 the [repr]
    of a [long], an integer beyond [sys.maxint], ends in [L], which this
    model does not write: it is exact for machine-sized status codes. *)
Fixpoint join_ints (l : list Z) : string :=
  match l with
  | [] => ""
  | [ n ] => str_int n
  | n :: rest => str_int n +:+ ", " +:+ join_ints rest
  end.

Definition str_int_list (l : list Z) : string := "[" +:+ join_ints l +:+ "]".

Definition digit (c : ascii) : option Z :=
  let n := code c in
  if (48 <=? n) && (n <=? 57) then Some (n - 48) else None.

(** The digits of an integer literal, most significant first, [acc] being
    the value read so far.  [sep] says whether a single underscore may stand
    between two digits (PEP 515, accepted by [int] on Python 3). *)
Fixpoint digits (sep : bool) (acc : Z) (s : string) : option Z :=
  match s with
  | EmptyString => Some acc
  | String c s' =>
      match digit c with
      | Some d => digits sep (10 * acc + d) s'
      | None =>
          if sep && Ascii.eqb c "_" then
            match s' with
            | String c' s'' =>
                match digit c' with
                | Some d => digits sep (10 * acc + d) s''
                | None => None
                end
            | EmptyString => None
            end
          else None
      end
  end.

Definition unsigned (sep : bool) (s : string) : option Z :=
  match s with
  | String c s' =>
      match digit c with
      | Some d => digits sep d s'
      | None => None
      end
  | EmptyString => None
  end.

Definition invalid_literal (s : string) : exc :=
  Exc ValueError ("invalid literal for int() with base 10: '" +:+ s +:+ "'").

(** [int(s)] for a string: blanks around, an optional sign, decimal digits;
    anything else is a [ValueError].  The length of the literal is not
    bounded here: CPython 3.11 and later also raise [ValueError] for a
    literal of more than 4300 digits, which the model accepts. *)
Definition int (v : version) (s : string) : result Z :=
  let blank := match v with Py2 => isspace_bytes | Py3 => isspace_text end in
  let sep := match v with Py2 => false | Py3 => true end in
  let body := strip blank s in
  let parsed :=
    match body with
    | String "-" s' => option_map Z.opp (unsigned sep s')
    | String "+" s' => unsigned sep s'
    | _ => unsigned sep body
    end in
  match parsed with
  | Some n => Ok n
  | None => Raise (invalid_literal s)
  end.

(** ** [repr] of a byte string (what [str(b)] is on Python 3) *)

Definition hex_digit (n : Z) : ascii :=
  if n <? 10 then chr (48 + n) else chr (87 + n).

Fixpoint mem_char (c : ascii) (s : string) : bool :=
  match s with
  | EmptyString => false
  | String c' s' => Ascii.eqb c c' || mem_char c s'
  end.

(** One byte, escaped for the chosen quote. *)
Definition repr_byte (q c : ascii) : string :=
  let n := code c in
  if Ascii.eqb c q || Ascii.eqb c backslash then String backslash (String c "")
  else if n =? 9 then String backslash "t"
  else if n =? 10 then String backslash "n"
  else if n =? 13 then String backslash "r"
  else if (n <? 32) || (127 <=? n) then
    String backslash (String "x" (String (hex_digit (n / 16)) (String (hex_digit (n mod 16)) "")))
  else String c "".

Fixpoint repr_body (q : ascii) (b : string) : string :=
  match b with
  | EmptyString => String q ""
  | String c b' => repr_byte q c +:+ repr_body q b'
  end.

Definition repr_bytes (b : string) : string :=
  let q := if mem_char quote1 b && negb (mem_char quote2 b) then quote2 else quote1 in
  String "b" (String q (repr_body q b)).

(** ** Values of mixed type *)

(** The values the variable [pingtime] of [MonitorHost.run_test] takes: the
    float [0.0] it starts with, and what [Match.group] returns. *)
Inductive value :=
  | VZero
  | VNone
  | VStr (s : string).

(** [str(x)], as used by the [%s] conversion. *)
Definition str_value (x : value) : string :=
  match x with
  | VZero => "0.0"
  | VNone => "None"
  | VStr s => s
  end.

(** [x > 0].  [0.0 > 0] is false.  Python 2 orders values of different
    types by a fixed rule: [None] is below every number and a string above;
    Python 3 raises [TypeError]. *)
Definition gt_zero (v : version) (x : value) : result bool :=
  match x, v with
  | VZero, _ => Ok false
  | VNone, Py2 => Ok false
  | VStr _, Py2 => Ok true
  | VNone, Py3 =>
      Raise (Exc TypeError "'>' not supported between instances of 'NoneType' and 'int'")
  | VStr _, Py3 =>
      Raise (Exc TypeError "'>' not supported between instances of 'str' and 'int'")
  end.

(** ** Regular expressions *)

(** A compiled pattern. *)
Record regex := Regex { pattern : string }.

(** A match object, reduced to its named groups; a group that took no part
    in the match is [None]. *)
Definition re_match := list (string * option string).

Fixpoint assoc {A} (k : string) (l : list (string * A)) : option A :=
  match l with
  | [] => None
  | (k', a) :: rest => if String.eqb k k' then Some a else assoc k rest
  end.

(** [m.group(name)] *)
Definition group (m : re_match) (name : string) : result value :=
  match assoc name m with
  | Some (Some s) => Ok (VStr s)
  | Some None => Ok VNone
  | None => Raise (Exc IndexError "no such group")
  end.

End Py.

Import Py.

(* ===================================================================== *)
(** * Floating point, as far as [MonitorHTTP.run_test] uses it            *)
(* ===================================================================== *)

Module PyFloat.

Import PrimFloat SpecFloat FloatOps.

(** [float(n)] for an [int] below 2**53, where it is exact. *)
Definition of_int (n : Z) : float := of_uint63 (Uint63.of_Z n).

(** The literal [1000000.2]: the binary64 number nearest to it. *)
Definition million_point_two : float := 0x1.e848066666666p+19%float.

(** [n / d] rounded to the nearest integer, a tie going to the even one. *)
Definition round_half_even (n d : Z) : Z :=
  let q := n / d in
  let r := n mod d in
  if 2 * r <? d then q
  else if d <? 2 * r then q + 1
  else if Z.even q then q else q + 1.

(** The hundredths in [m * 2**e], correctly rounded. *)
Definition hundredths (m : positive) (e : Z) : Z :=
  if 0 <=? e then Z.pos m * 2 ^ e * 100
  else round_half_even (Z.pos m * 100) (2 ^ (- e)).

Definition two_digits (n : Z) : string :=
  (if n <? 10 then "0" else "") +:+ str_int n.

(** ["%0.2f" % x]: the decimal with two places nearest to the exact value
    of [x]. *)
Definition percent_2f (x : float) : string :=
  match Prim2SF x with
  | S754_zero s => (if s then "-" else "") +:+ "0.00"
  | S754_infinity s => if s then "-inf" else "inf"
  | S754_nan => "nan"
  | S754_finite s m e =>
      let h := hundredths m e in
      (if s then "-" else "") +:+ str_int (h / 100) +:+ "." +:+ two_digits (h mod 100)
  end.

(** ["%0.2f" % (seconds + (microseconds / 1000000.2))] for the two [int]
    attributes of a [timedelta]: the division and the sum are those of
    binary64. *)
Definition seconds_2f (seconds microseconds : Z) : string :=
  percent_2f (of_int seconds + of_int microseconds / million_point_two)%float.

End PyFloat.

(** The library behaviour the source takes from its interpreter and is not
    spelled out here: which interpreter runs it, the regular-expression
    engine, the [%] operator on a configured template, UTF-8 decoding, and
    the formatting of a float. *)
Class Runtime := {
  (** the interpreter's major version *)
  py_version : version;
  (** [sys.platform] *)
  sys_platform : string;
  (** whether [re.compile] accepts a pattern *)
  re_compiles : string -> bool;
  (** [r.search(text)] for a compiled pattern *)
  re_search : regex -> string -> option re_match;
  (** [template % arg] for a string [arg] *)
  str_mod : string -> string -> result string;
  (** [b.decode('utf-8')] *)
  decode_utf8 : string -> result string;
  (** ["%0.2f" % (seconds + microseconds / 1000000.2)] *)
  float_2f : Z -> Z -> string
}.

Section runtime.
Context {rt : Runtime}.

(** [re.compile(p)] *)
Definition re_compile (p : string) : result regex :=
  if re_compiles p then Ok (Regex p)
  else Raise (Exc ReError ("invalid pattern: " +:+ p)).

(** [str(b)] for what [subprocess.check_output] returns: the string itself
    on Python 2, where it is a [str]; its [repr] on Python 3, where it is a
    [bytes]. *)
Definition str_of_output (b : string) : string :=
  match py_version with
  | Py2 => b
  | Py3 => repr_bytes b
  end.

(** The blanks [s.strip()] removes from a configuration value: a byte
    string on Python 2, text on Python 3. *)
Definition isspace_config : ascii -> bool :=
  match py_version with
  | Py2 => isspace_bytes
  | Py3 => isspace_text
  end.

End runtime.

(** A configuration: option name to string value ([config_options]). *)
Abbreviation config := (gmap string string).

(** [d[key]] *)
Definition getitem (d : config) (key : string) : result string :=
  match d !! key with
  | Some v => Ok v
  | None => Raise (Exc KeyError ("'" +:+ key +:+ "'"))
  end.

(** [[f(x) for x in l]], stopping at the first exception. *)
Fixpoint map_result {A B} (f : A -> result B) (l : list A) : result (list B) :=
  match l with
  | [] => Ok []
  | x :: rest =>
      (y <- f x ;; ys <- map_result f rest ;; Ok (y :: ys))%result
  end.

(* ===================================================================== *)
(** * The base class                                                      *)
(* ===================================================================== *)

Module Recorder.

(** What a monitor hands to the recorder: a formatted string, or (in
    [MonitorHost.run_test]) the exception object itself. *)
Inductive message :=
  | Text (s : string)
  | Exception (e : exc).

(** Modelled from the spec: [record_success] and [record_fail] live in the
    base class [Monitor] (module [monitor], not among the sources).  The spec
    gives the Result Recorder two methods, [success(message)] and
    [failure(message)], that receive the outcome of a run; the source calls
    them with one argument or with none.  A call is modelled as the event it
    leaves in the recorder, and does not raise. *)
Inductive call :=
  | record_success (m : option message)
  | record_fail (m : option message).

(** A computation that calls the recorder and then returns or raises: the
    calls made, in order, and the outcome. *)
Definition action (A : Type) : Type := list call * result A.

Definition ret {A} (a : A) : action A := ([], Ok a).

Definition bind {A B} (m : action A) (k : A -> action B) : action B :=
  match m with
  | (calls, Ok a) => let '(calls', r) := k a in ((calls ++ calls')%list, r)
  | (calls, Raise e) => (calls, Raise e)
  end.

(** An expression that calls nothing. *)
Definition lift {A} (r : result A) : action A := ([], r).

(** A call to the recorder. *)
Definition emit (c : call) : action unit := ([ c ], Ok tt).

(** [try: body  except ... as e: handler(e)] followed by [rest]: every
    handler of the source ends in [return], so [rest] runs only when [body]
    completed. *)
Definition try_except {A B} (body : action A) (handler : exc -> action B)
    (rest : A -> action B) : action B :=
  match body with
  | (calls, Ok a) => let '(calls', r) := rest a in ((calls ++ calls')%list, r)
  | (calls, Raise e) => let '(calls', r) := handler e in ((calls ++ calls')%list, r)
  end.

Definition calls {A} (m : action A) : list call := fst m.
Definition outcome {A} (m : action A) : result A := snd m.

(** The run recorded one success and returned [True]. *)
Definition succeeded (m : action bool) (msg : option message) : Prop :=
  m = ([ record_success msg ], Ok true).

(** The run recorded one failure and returned [False]. *)
Definition failed (m : action bool) (msg : option message) : Prop :=
  m = ([ record_fail msg ], Ok false).

End Recorder.

Import Recorder.

Declare Scope action_scope.
Delimit Scope action_scope with action.
Notation "x <- m ;; k" := (Recorder.bind m (fun x => k))
  (at level 100, m at next level, right associativity) : action_scope.
Notation "m ;;; k" := (Recorder.bind m (fun _ => k))
  (at level 100, right associativity) : action_scope.

Module Monitor.

(** Modelled from the spec: [Monitor.__init__] is the constructor of the base
    class [Monitor] (module [monitor], not among the sources).  The spec
    leaves the base lifecycle to the Result Recorder and gives the
    constructor of a probe one way to fail, its own validation, so the base
    constructor is taken to complete. *)
Definition __init__ (name : string) (config_options : config) : result unit :=
  Ok tt.

Definition missing_fields : exc :=
  Exc RuntimeError "Required configuration fields missing".

End Monitor.

(* ===================================================================== *)
(** * class MonitorHTTP                                                   *)
(* ===================================================================== *)

Module MonitorHTTP.

(** The attributes of an instance.  [regexp], [certfile] and [keyfile] keep
    their class default [None] unless the constructor sets them;
    [regexp_text] keeps [""]. *)
Record t := {
  url : string;
  regexp : option regex;
  regexp_text : string;
  allowed_codes : list Z;
  certfile : option string;
  keyfile : option string;
  verify_hostname : bool;
  request_timeout : Z;
  username : option string;
  password : option string
}.

(** How [requests.get] is told to authenticate: the [auth=] and [cert=]
    keyword arguments. *)
Inductive credentials :=
  | Anonymous
  | HTTPBasicAuth (username : option string) (password : option string)
  | ClientCert (certfile keyfile : option string).

(** The arguments of one [requests.get] call. *)
Record request := {
  req_url : string;
  req_timeout : Z;
  req_verify : bool;
  req_auth : credentials
}.

(** What the run reads of the response. *)
Record response := {
  status_code : Z;
  reason : string;
  text : string
}.

(** The outside of one run: the two readings of the clock (microseconds),
    and what [requests.get] does with the request. *)
Record world := {
  now_before : Z;
  now_after : Z;
  requests_get : request -> result response
}.

(** [end_time - start_time] as a [timedelta]: its [seconds] and
    [microseconds] attributes (whole days are a third attribute the source
    does not read). *)
Definition day_us : Z := 86400 * 1000000.
Definition timedelta_seconds (delta_us : Z) : Z := (delta_us mod day_us) / 1000000.
Definition timedelta_microseconds (delta_us : Z) : Z := (delta_us mod day_us) mod 1000000.

Section methods.
Context {rt : Runtime}.

Definition __init__ (name : string) (config_options : config) : result t :=
  (_ <- Monitor.__init__ name config_options ;;
   url <- rcatch (getitem config_options "url")
            (fun _ => Raise Monitor.missing_fields) ;;
   let regexp :=
     match config_options !! "regexp" with
     | Some r => r
     | None => ""
     end in
   allowed_codes <-
     match config_options !! "allowed_codes" with
     | Some codes =>
         map_result (fun x => int py_version (strip isspace_config x)) (split "," codes)
     | None => Ok [ 200 ]
     end ;;
   let cert :=
     match config_options !! "certfile" with
     | Some certfile =>
         match config_options !! "keyfile" with
         | Some keyfile => (Some certfile, Some keyfile)
         | None => (Some certfile, Some certfile)
         end
     | None => (None, None)
     end in
   let verify_hostname :=
     match config_options !! "verify_hostname" with
     | Some v => if String.eqb (lower v) "false" then false else true
     | None => true
     end in
   compiled <-
     (if negb (String.eqb regexp "")
      then (r <- re_compile regexp ;; Ok (Some r, regexp))
      else Ok (None, "")) ;;
   request_timeout <-
     match config_options !! "timeout" with
     | Some v => int py_version v
     | None => Ok 5
     end ;;
   Ok {| url := url;
         regexp := fst compiled;
         regexp_text := snd compiled;
         allowed_codes := allowed_codes;
         certfile := fst cert;
         keyfile := snd cert;
         verify_hostname := verify_hostname;
         request_timeout := request_timeout;
         username := config_options !! "username";
         password := config_options !! "password" |})%result.

(** The request [run_test] sends: one of its three [requests.get] calls. *)
Definition request_of (self : t) : request :=
  {| req_url := url self;
     req_timeout := request_timeout self;
     req_verify := verify_hostname self;
     req_auth :=
       match certfile self, username self with
       | None, None => Anonymous
       | None, Some user => HTTPBasicAuth (Some user) (password self)
       | Some _, _ => ClientCert (certfile self) (keyfile self)
       end |}.

(** ["%s in %0.2fs" % (r.status_code, load_time.seconds + load_time.microseconds / 1000000.2)] *)
Definition success_message (r : response) (load_time : Z) : string :=
  str_int (status_code r) +:+ " in "
  +:+ float_2f (timedelta_seconds load_time) (timedelta_microseconds load_time) +:+ "s".

(** ["Got status '{0} {1}' instead of {2}".format(r.status_code, r.reason, self.allowed_codes)] *)
Definition status_message (self : t) (r : response) : string :=
  "Got status '" +:+ str_int (status_code r) +:+ " " +:+ reason r
  +:+ "' instead of " +:+ str_int_list (allowed_codes self).

(** ["Got '{0} {1}' but couldn't match /{2}/ in page.".format(r.status_code, r.reason, self.regexp_text)] *)
Definition nomatch_message (self : t) (r : response) : string :=
  "Got '" +:+ str_int (status_code r) +:+ " " +:+ reason r
  +:+ "' but couldn't match /" +:+ regexp_text self +:+ "/ in page.".

Definition run_test (w : world) (self : t) : action bool :=
  let start_time := now_before w in
  try_except
    (r <- lift (requests_get w (request_of self)) ;;
     let end_time := now_after w in
     let load_time := end_time - start_time in
     if negb (existsb (Z.eqb (status_code r)) (allowed_codes self)) then
       (emit (record_fail (Some (Text (status_message self r)))) ;;; ret false)
     else
       match regexp self with
       | None =>
           (emit (record_success (Some (Text (success_message r load_time)))) ;;; ret true)
       | Some re =>
           match re_search re (text r) with
           | Some _ =>
               (emit (record_success (Some (Text (success_message r load_time)))) ;;; ret true)
           | None =>
               (emit (record_fail (Some (Text (nomatch_message self r)))) ;;; ret false)
           end
       end)%action
    (fun e =>
       if is_RequestException e then
         (emit (record_fail (Some (Text ("Requests exception while opening URL: " +:+ exc_str e)))) ;;;
          ret false)%action
       else
         (emit (record_fail (Some (Text ("Exception while trying to open url: " +:+ exc_str e)))) ;;;
          ret false)%action)
    ret.

(** Explains what we do. *)
Definition describe (self : t) : string :=
  match regexp self with
  | None => "Checking that accessing " +:+ url self +:+ " returns HTTP/200 OK"
  | Some _ =>
      "Checking that accessing " +:+ url self
      +:+ " returns HTTP/200 OK and that /" +:+ regexp_text self +:+ "/ matches the page"
  end.

Definition get_params (self : t) : string * string * list Z :=
  (url self, regexp_text self, allowed_codes self).

End methods.

End MonitorHTTP.

(* ===================================================================== *)
(** * class MonitorTCP                                                    *)
(* ===================================================================== *)

Module MonitorTCP.

Record t := {
  host : string;
  port : Z
}.

(** The outside of one run: what each call on the socket does.  [None] is a
    call that completes, [Some e] one that raises [e]. *)
Record world := {
  socket_socket : option exc;
  settimeout : option exc;
  connect : string -> Z -> option exc;
  close : option exc
}.

(** A call made for its effect alone. *)
Definition call (o : option exc) : action unit :=
  match o with
  | None => ret tt
  | Some e => lift (Raise e)
  end.

Section methods.
Context {rt : Runtime}.

(** [port] is an [int] by the time it is compared, so the test [port == ""]
    of the source is false and only [port <= 0] decides. *)
Definition __init__ (name : string) (config_options : config) : result t :=
  (_ <- Monitor.__init__ name config_options ;;
   hp <- rcatch
           (host <- getitem config_options "host" ;;
            p <- getitem config_options "port" ;;
            port <- int py_version p ;;
            Ok (host, port))
           (fun _ => Raise Monitor.missing_fields) ;;
   let '(host, port) := hp in
   if String.eqb host "" then Raise (Exc RuntimeError "missing hostname")
   else if port <=? 0 then Raise (Exc RuntimeError "missing or invalid port number")
   else Ok {| host := host; port := port |})%result.

Definition run_test (w : world) (self : t) : action bool :=
  (_ <- call (socket_socket w) ;;
   try_except
     (call (settimeout w) ;;; call (connect w (host self) (port self)))
     (fun _ => emit (record_fail None) ;;; ret false)
     (fun _ => call (close w) ;;; emit (record_success None) ;;; ret true))%action.

(** Explains what this instance is checking:
    ["checking for open tcp socket on %s:%d" % (self.host, self.port)]. *)
Definition describe (self : t) : string :=
  "checking for open tcp socket on " +:+ host self +:+ ":" +:+ str_int (port self).

Definition get_params (self : t) : string * Z :=
  (host self, port self).

End methods.

End MonitorTCP.

(* ===================================================================== *)
(** * class MonitorHost                                                   *)
(* ===================================================================== *)

Module MonitorHost.

(** The attributes of an instance; the three ping attributes keep their
    class default [""] unless the constructor sets them. *)
Record t := {
  host : string;
  ping_command : string;
  ping_regexp : string;
  time_regexp : string
}.

(** The outside of one run: [subprocess.check_output] on an argument list,
    returning the bytes the command wrote or raising. *)
Record world := {
  check_output : list string -> result string
}.

Definition win_time_regexp : string := "Average = (?P<ms>\d+)ms".
Definition posix_time_regexp : string :=
  "min/avg/max/stddev = [\d.]+/(?P<ms>[\d.]+)/".

Section methods.
Context {rt : Runtime}.

(** The platform branch of the constructor: command template, reply
    pattern, time pattern.  On a platform it does not know, the source
    builds a [RuntimeError] and drops it, so the class defaults stay. *)
Definition platform_dispatch (platform ping_ttl ping_ms : string)
    : string * string * string :=
  if String.eqb platform "win32" || String.eqb platform "cygwin" then
    ("ping -n 1 -w " +:+ ping_ms +:+ " %s", "Reply from ", win_time_regexp)
  else if startswith "freebsd" platform || startswith "darwin" platform then
    ("ping -c1 -t" +:+ ping_ttl +:+ " %s", "bytes from", posix_time_regexp)
  else if startswith "linux" platform then
    ("ping -c1 -W" +:+ ping_ttl +:+ " %s", "bytes from", posix_time_regexp)
  else
    ("", "", "").

Definition __init__ (name : string) (config_options : config) : result t :=
  (_ <- Monitor.__init__ name config_options ;;
   ping_ttl <- rcatch (getitem config_options "ping_ttl") (fun _ => Ok "5") ;;
   let ping_ms := str_mul ping_ttl 1000 in
   let platform := sys_platform in
   let '(command, reply, time) := platform_dispatch platform ping_ttl ping_ms in
   host <- rcatch (getitem config_options "host")
             (fun _ => Raise Monitor.missing_fields) ;;
   if String.eqb host "" then Raise (Exc RuntimeError "missing hostname")
   else Ok {| host := host;
              ping_command := command;
              ping_regexp := reply;
              time_regexp := time |})%result.

(** The [for line in ...] loop of [run_test]: the values of [success] and
    [pingtime] after the remaining lines. *)
Fixpoint scan (r r2 : regex) (lines : list string) (success : bool) (pingtime : value)
    : result (bool * value) :=
  match lines with
  | [] => Ok (success, pingtime)
  | line :: rest =>
      match re_search r line with
      | Some _ => scan r r2 rest true pingtime
      | None =>
          match re_search r2 line with
          | Some matches =>
              (ms <- group matches "ms" ;; scan r r2 rest success ms)%result
          | None => scan r r2 rest success pingtime
          end
      end
  end.

(** The lines the loop runs over: [str(output).split("\n")]. *)
Definition lines_of (output : string) : list string :=
  split LF (str_of_output output).

Definition run_test (w : world) (self : t) : action bool :=
  (r <- lift (re_compile (ping_regexp self)) ;;
   r2 <- lift (re_compile (time_regexp self)) ;;
   try_except
     (lift (line <- str_mod (ping_command self) (host self) ;;
            let cmd := split " " line in
            output <- check_output w cmd ;;
            scan r r2 (lines_of output) false VZero)%result)
     (fun e => emit (record_fail (Some (Exception e))) ;;; ret false)
     (fun '(success, pingtime) =>
        if success then
          (positive <- lift (gt_zero py_version pingtime) ;;
           (if positive
            then emit (record_success (Some (Text (str_value pingtime +:+ "ms"))))
            else emit (record_success None)) ;;;
           ret true)
        else
          (emit (record_fail None) ;;; ret false)))%action.

(** Explains what this instance is checking. *)
Definition describe (self : t) : string :=
  "checking host " +:+ host self +:+ " is pingable".

(** The one-element tuple [(self.host, )]. *)
Definition get_params (self : t) : string := host self.

End methods.

End MonitorHost.

(* ===================================================================== *)
(** * class MonitorDNS                                                    *)
(* ===================================================================== *)

Module MonitorDNS.

Definition command : string := "dig".

Record t := {
  path : string;
  desired_val : option string;
  server : option string;
  params : list string;
  rectype : option string
}.

(** The outside of one run: [subprocess.check_output] on an argument list,
    returning the bytes the command wrote or raising. *)
Record world := {
  check_output : list string -> result string
}.

Section methods.
Context {rt : Runtime}.

Definition __init__ (name : string) (config_options : config) : result t :=
  (_ <- Monitor.__init__ name config_options ;;
   path <- rcatch (getitem config_options "record")
             (fun _ => Raise Monitor.missing_fields) ;;
   if String.eqb path "" then Raise Monitor.missing_fields
   else
     let desired_val := config_options !! "desired_val" in
     let server := config_options !! "server" in
     let params := [ command ] in
     let params :=
       match server with
       | Some s => if truthy s then (params ++ [ "@" +:+ s ])%list else params
       | None => params
       end in
     let params :=
       match config_options !! "record_type" with
       | Some ty => (params ++ [ "-t" ; ty ])%list
       | None => params
       end in
     let params := (params ++ [ path ; "+short" ])%list in
     Ok {| path := path;
           desired_val := desired_val;
           server := server;
           params := params;
           rectype := config_options !! "record_type" |})%result.

(** [self.desired_val and result != self.desired_val] *)
Definition unexpected (self : t) (result : string) : bool :=
  match desired_val self with
  | Some d => truthy d && negb (String.eqb result d)
  | None => false
  end.

Definition run_test (w : world) (self : t) : action bool :=
  try_except
    (output <- lift (check_output w (params self)) ;;
     result <- lift (decode_utf8 output) ;;
     let result := strip isspace_text result in
     if String.eqb result "" then
       (emit (record_fail (Some (Text ("failed to resolve " +:+ path self)))) ;;; ret false)
     else if unexpected self result then
       (emit (record_fail (Some (Text ("resolved DNS record is unexpected: "
                                       +:+ str_opt (desired_val self)
                                       +:+ " != " +:+ result)))) ;;;
        ret false)
     else
       (emit (record_success None) ;;; ret true))%action
    (fun e =>
       (emit (record_fail (Some (Text ("Exception while executing " +:+ command +:+ ": "
                                       +:+ exc_str e)))) ;;;
        ret false)%action)
    ret.

(** The three parts of the sentence [describe] builds; each tests the truth
    value of its attribute, so [None] and the empty string read alike. *)
Definition end_part (self : t) : string :=
  match desired_val self with
  | Some d => if truthy d then "resolves to " +:+ d else "is resolvable"
  | None => "is resolvable"
  end.

Definition mid_part (self : t) : string :=
  match rectype self with
  | Some ty =>
      if truthy ty then ty +:+ " record " +:+ path self else "record " +:+ path self
  | None => "record " +:+ path self
  end.

Definition very_end_part (self : t) : string :=
  match server self with
  | Some s => if truthy s then " at " +:+ s else ""
  | None => ""
  end.

Definition describe (self : t) : string :=
  "Checking that DNS " +:+ mid_part self +:+ " " +:+ end_part self +:+ very_end_part self.

(** The one-element tuple [(self.path, )]. *)
Definition get_params (self : t) : string := path self.

End methods.

End MonitorDNS.

(* ===================================================================== *)
(** * A concrete runtime, to run the monitors on examples                 *)
(* ===================================================================== *)

Module Demo.

(** The first position of [s] at which [here] succeeds, as [re.search]
    tries positions from left to right. *)
Fixpoint search_from {A} (here : string -> option A) (s : string) : option A :=
  match here s with
  | Some a => Some a
  | None =>
      match s with
      | EmptyString => None
      | String _ s' => search_from here s'
      end
  end.

(** The longest prefix of [s] made of characters in [p], and the rest. *)
Fixpoint span (p : ascii -> bool) (s : string) : string * string :=
  match s with
  | EmptyString => ("", "")
  | String c s' =>
      if p c then let '(a, b) := span p s' in (String c a, b) else ("", s)
  end.

Fixpoint drop_prefix (p s : string) : option string :=
  match p, s with
  | EmptyString, _ => Some s
  | String a p', String b s' => if Ascii.eqb a b then drop_prefix p' s' else None
  | String _ _, EmptyString => None
  end.

Definition is_digit (c : ascii) : bool :=
  match digit c with Some _ => true | None => false end.
Definition is_digit_or_dot (c : ascii) : bool := is_digit c || Ascii.eqb c ".".

(** [Average = (?P<ms>\d+)ms] at the start of [s]. *)
Definition win_time_here (s : string) : option re_match :=
  match drop_prefix "Average = " s with
  | Some rest =>
      let '(ms, rest') := span is_digit rest in
      if negb (String.eqb ms "") && startswith "ms" rest'
      then Some [ ("ms", Some ms) ] else None
  | None => None
  end.

(** [min/avg/max/stddev = [\d.]+/(?P<ms>[\d.]+)/] at the start of [s]. *)
Definition posix_time_here (s : string) : option re_match :=
  match drop_prefix "min/avg/max/stddev = " s with
  | Some rest =>
      let '(lo, rest1) := span is_digit_or_dot rest in
      match rest1 with
      | String "/" rest2 =>
          let '(ms, rest3) := span is_digit_or_dot rest2 in
          if negb (String.eqb lo "") && negb (String.eqb ms "") && startswith "/" rest3
          then Some [ ("ms", Some ms) ] else None
      | _ => None
      end
  | None => None
  end.

(** The engine: the two time patterns of [MonitorHost] by hand, any other
    pattern read as literal text. *)
Definition search (r : regex) (s : string) : option re_match :=
  if String.eqb (pattern r) MonitorHost.win_time_regexp then search_from win_time_here s
  else if String.eqb (pattern r) MonitorHost.posix_time_regexp then search_from posix_time_here s
  else search_from (fun s' => if startswith (pattern r) s' then Some [] else None) s.

(** [template % arg] for templates made of text, [%s] and [%%]. *)
Fixpoint format (template arg : string) (converted : bool) : result string :=
  match template with
  | EmptyString =>
      if converted then Ok ""
      else Raise (Exc TypeError "not all arguments converted during string formatting")
  | String "%" (String "s" rest) =>
      if converted then Raise (Exc TypeError "not enough arguments for format string")
      else (tail <- format rest arg true ;; Ok (arg +:+ tail))%result
  | String "%" (String "%" rest) =>
      (tail <- format rest arg converted ;; Ok (String "%" tail))%result
  | String "%" _ => Raise (Exc ValueError "unsupported format character")
  | String c rest =>
      (tail <- format rest arg converted ;; Ok (String c tail))%result
  end.

Fixpoint all_ascii (s : string) : bool :=
  match s with
  | EmptyString => true
  | String c s' => (code c <? 128) && all_ascii s'
  end.

(** Decoding of ASCII output; other bytes are refused. *)
Definition decode (b : string) : result string :=
  if all_ascii b then Ok b
  else Raise (Exc UnicodeDecodeError "'utf-8' codec can't decode byte").

Definition runtime (v : version) (platform : string) : Runtime :=
  {| py_version := v;
     sys_platform := platform;
     re_compiles := fun _ => true;
     re_search := search;
     str_mod := fun template arg => format template arg false;
     decode_utf8 := decode;
     float_2f := PyFloat.seconds_2f |}.

(** A ping that answers, as the BSD and macOS [ping] prints it. *)
Definition ping_output : string :=
  "PING example.org (192.0.2.1): 56 data bytes" +:+ String LF
  ("64 bytes from 192.0.2.1: icmp_seq=0 ttl=57 time=11.632 ms" +:+ String LF
  ("round-trip min/avg/max/stddev = 11.632/12.5/13.1/0.000 ms" +:+ String LF "")).

End Demo.

(* ===================================================================== *)
(** * Reading the output of ping, in the words of the specification       *)
(* ===================================================================== *)

Module HostOutput.

Section reading.
Context {rt : Runtime}.

(** The reply pattern is found in the line. *)
Definition replied (r : regex) (line : string) : bool :=
  match re_search r line with
  | Some _ => true
  | None => false
  end.

(** The round-trip time the time pattern captures in the line. *)
Definition time_in (r2 : regex) (line : string) : option string :=
  match re_search r2 line with
  | Some m =>
      match assoc "ms" m with
      | Some (Some ms) => Some ms
      | _ => None
      end
  | None => None
  end.

(** The lines on which the reply pattern is not found. *)
Definition silent_lines (r : regex) (lines : list string) : list string :=
  List.filter (fun line => negb (replied r line)) lines.

(** The time captured last among the given lines. *)
Definition last_time (r2 : regex) (lines : list string) : option string :=
  last (omap (time_in r2) lines).

(** The message of a success: the captured time in milliseconds, or none. *)
Definition time_message (time : option string) : option message :=
  match time with
  | Some ms => Some (Text (ms +:+ "ms"))
  | None => None
  end.

(** Wherever the time pattern matches, its group [ms] took part in the
    match: the group is not optional in either time pattern. *)
Definition binds_ms (r2 : regex) : Prop :=
  forall line m, re_search r2 line = Some m ->
    exists ms, assoc "ms" m = Some (Some ms).

End reading.

End HostOutput.

(* ===================================================================== *)
(** * Sample configurations and worlds                                    *)
(* ===================================================================== *)

Module Sample.

(** A BSD host running Python 2; Linux, Windows and Solaris hosts running
    Python 3. *)
Definition bsd_py2 : Runtime := Demo.runtime Py2 "freebsd13".
Definition linux_py3 : Runtime := Demo.runtime Py3 "linux".
Definition windows_py3 : Runtime := Demo.runtime Py3 "win32".
Definition solaris_py3 : Runtime := Demo.runtime Py3 "sunos5".

End Sample.

Module SampleHTTP.

Definition config_plain : config := {[ "url" := "http://example.org/" ]}.

(** The probe of [config_plain]: status 200 expected, no pattern. *)
Definition probe : MonitorHTTP.t :=
  {| MonitorHTTP.url := "http://example.org/";
     MonitorHTTP.regexp := None;
     MonitorHTTP.regexp_text := "";
     MonitorHTTP.allowed_codes := [ 200 ];
     MonitorHTTP.certfile := None;
     MonitorHTTP.keyfile := None;
     MonitorHTTP.verify_hostname := true;
     MonitorHTTP.request_timeout := 5;
     MonitorHTTP.username := None;
     MonitorHTTP.password := None |}.

Definition config_pattern : config :=
  {[ "url" := "http://example.org/" ; "regexp" := "OK" ; "allowed_codes" := "200, 204" ]}.

(** The probe of [config_pattern]. *)
Definition probe_pattern : MonitorHTTP.t :=
  {| MonitorHTTP.url := "http://example.org/";
     MonitorHTTP.regexp := Some (Regex "OK");
     MonitorHTTP.regexp_text := "OK";
     MonitorHTTP.allowed_codes := [ 200 ; 204 ];
     MonitorHTTP.certfile := None;
     MonitorHTTP.keyfile := None;
     MonitorHTTP.verify_hostname := true;
     MonitorHTTP.request_timeout := 5;
     MonitorHTTP.username := None;
     MonitorHTTP.password := None |}.

(** A configuration whose url is present and empty, and the probe
    [MonitorHTTP.__init__] builds from it. *)
Definition config_empty_url : config := {[ "url" := "" ]}.

Definition probe_empty_url : MonitorHTTP.t :=
  {| MonitorHTTP.url := "";
     MonitorHTTP.regexp := None;
     MonitorHTTP.regexp_text := "";
     MonitorHTTP.allowed_codes := [ 200 ];
     MonitorHTTP.certfile := None;
     MonitorHTTP.keyfile := None;
     MonitorHTTP.verify_hostname := true;
     MonitorHTTP.request_timeout := 5;
     MonitorHTTP.username := None;
     MonitorHTTP.password := None |}.

(** A server that answers every request the same way, 1.234567 s after it
    was sent. *)
Definition answers (code : Z) (reason body : string) : MonitorHTTP.world :=
  {| MonitorHTTP.now_before := 0;
     MonitorHTTP.now_after := 1234567;
     MonitorHTTP.requests_get := fun _ =>
       Ok {| MonitorHTTP.status_code := code;
             MonitorHTTP.reason := reason;
             MonitorHTTP.text := body |} |}.

(** A server that answers 200 while the clock of the host is set back: the
    second reading is one second before the first. *)
Definition clock_set_back : MonitorHTTP.world :=
  {| MonitorHTTP.now_before := 1000000;
     MonitorHTTP.now_after := 0;
     MonitorHTTP.requests_get := fun _ =>
       Ok {| MonitorHTTP.status_code := 200;
             MonitorHTTP.reason := "OK";
             MonitorHTTP.text := "" |} |}.

(** A server that cannot be reached. *)
Definition unreachable : MonitorHTTP.world :=
  {| MonitorHTTP.now_before := 0;
     MonitorHTTP.now_after := 5000000;
     MonitorHTTP.requests_get := fun _ =>
       Raise (Exc RequestException
                "HTTPConnectionPool(host='example.org', port=80): Max retries exceeded") |}.

End SampleHTTP.

Module SampleTCP.

Definition tcp_config : config := {[ "host" := "example.org" ; "port" := "80" ]}.

(** The probe of [tcp_config]. *)
Definition probe : MonitorTCP.t :=
  {| MonitorTCP.host := "example.org"; MonitorTCP.port := 80 |}.

(** A configuration whose host is present and empty. *)
Definition config_empty_host : config := {[ "host" := "" ; "port" := "80" ]}.

(** What [socket.socket] raises in a process that has no file descriptor
    left. *)
Definition too_many_files : exc := Exc OSError "[Errno 24] Too many open files".

(** A world in which no socket can be created. *)
Definition no_descriptors : MonitorTCP.world :=
  {| MonitorTCP.socket_socket := Some too_many_files;
     MonitorTCP.settimeout := None;
     MonitorTCP.connect := fun _ _ => None;
     MonitorTCP.close := None |}.

(** A port that accepts the connection. *)
Definition listening : MonitorTCP.world :=
  {| MonitorTCP.socket_socket := None;
     MonitorTCP.settimeout := None;
     MonitorTCP.connect := fun _ _ => None;
     MonitorTCP.close := None |}.

(** A port that refuses the connection. *)
Definition refusing : MonitorTCP.world :=
  {| MonitorTCP.socket_socket := None;
     MonitorTCP.settimeout := None;
     MonitorTCP.connect := fun _ _ => Some (Exc OSError "[Errno 111] Connection refused");
     MonitorTCP.close := None |}.

End SampleTCP.

Module SampleHost.

Definition host_config : config := {[ "host" := "example.org" ]}.

(** The probe of [host_config] on the BSD host, on Linux and on Windows. *)
Definition bsd_ping : MonitorHost.t :=
  {| MonitorHost.host := "example.org";
     MonitorHost.ping_command := "ping -c1 -t5 %s";
     MonitorHost.ping_regexp := "bytes from";
     MonitorHost.time_regexp := MonitorHost.posix_time_regexp |}.

Definition linux_ping : MonitorHost.t :=
  {| MonitorHost.host := "example.org";
     MonitorHost.ping_command := "ping -c1 -W5 %s";
     MonitorHost.ping_regexp := "bytes from";
     MonitorHost.time_regexp := MonitorHost.posix_time_regexp |}.

Definition windows_ping : MonitorHost.t :=
  {| MonitorHost.host := "example.org";
     MonitorHost.ping_command := "ping -n 1 -w " +:+ str_mul "5" 1000 +:+ " %s";
     MonitorHost.ping_regexp := "Reply from ";
     MonitorHost.time_regexp := MonitorHost.win_time_regexp |}.

(** What [MonitorHost.__init__] returns for [host_config] on a platform it
    does not know. *)
Definition blank_ping : MonitorHost.t :=
  {| MonitorHost.host := "example.org";
     MonitorHost.ping_command := "";
     MonitorHost.ping_regexp := "";
     MonitorHost.time_regexp := "" |}.

(** A ping command that prints [Demo.ping_output]. *)
Definition ping_answers : MonitorHost.world :=
  {| MonitorHost.check_output := fun _ => Ok Demo.ping_output |}.

(** A ping command that ends with a non-zero status. *)
Definition ping_fails : MonitorHost.world :=
  {| MonitorHost.check_output := fun _ =>
       Raise (Exc CalledProcessError
                "Command '['ping', '-c1', '-W5', 'example.org']' returned non-zero exit status 2") |}.

End SampleHost.

Module SampleDNS.

(** A resolver command that prints the given bytes. *)
Definition prints (output : string) : MonitorDNS.world :=
  {| MonitorDNS.check_output := fun _ => Ok output |}.

(** A resolver command that is not installed. *)
Definition no_dig : MonitorDNS.world :=
  {| MonitorDNS.check_output := fun _ =>
       Raise (Exc OSError "[Errno 2] No such file or directory") |}.

Definition address_line : string := "192.0.2.1" +:+ String LF "".

(** [desired_val] configured, and empty. *)
Definition config_empty_val : config :=
  {[ "record" := "example.org" ; "desired_val" := "" ]}.

Definition probe_empty_val : MonitorDNS.t :=
  {| MonitorDNS.path := "example.org";
     MonitorDNS.desired_val := Some "";
     MonitorDNS.server := None;
     MonitorDNS.params := [ "dig" ; "example.org" ; "+short" ];
     MonitorDNS.rectype := None |}.

(** [desired_val] configured with an address. *)
Definition config_val : config :=
  {[ "record" := "example.org" ; "desired_val" := "192.0.2.7" ]}.

Definition probe_val : MonitorDNS.t :=
  {| MonitorDNS.path := "example.org";
     MonitorDNS.desired_val := Some "192.0.2.7";
     MonitorDNS.server := None;
     MonitorDNS.params := [ "dig" ; "example.org" ; "+short" ];
     MonitorDNS.rectype := None |}.

(** The same record asked of two resolvers, for two record types. *)
Definition config_a : config :=
  {[ "record" := "example.org" ; "server" := "192.0.2.53" ; "record_type" := "A" ]}.
Definition config_mx : config :=
  {[ "record" := "example.org" ; "server" := "198.51.100.53" ; "record_type" := "MX" ]}.

Definition probe_a : MonitorDNS.t :=
  {| MonitorDNS.path := "example.org";
     MonitorDNS.desired_val := None;
     MonitorDNS.server := Some "192.0.2.53";
     MonitorDNS.params := [ "dig" ; "@192.0.2.53" ; "-t" ; "A" ; "example.org" ; "+short" ];
     MonitorDNS.rectype := Some "A" |}.

Definition probe_mx : MonitorDNS.t :=
  {| MonitorDNS.path := "example.org";
     MonitorDNS.desired_val := None;
     MonitorDNS.server := Some "198.51.100.53";
     MonitorDNS.params := [ "dig" ; "@198.51.100.53" ; "-t" ; "MX" ; "example.org" ; "+short" ];
     MonitorDNS.rectype := Some "MX" |}.

End SampleDNS.

(* ===================================================================== *)
(** * More sample configurations                                          *)
(* ===================================================================== *)

Module SampleMore.

(** An HTTP configuration with a client certificate and a user name. *)
Definition config_cert : config :=
  {[ "url" := "https://example.org/" ; "certfile" := "/etc/ssl/client.pem" ;
     "username" := "monitor" ; "password" := "secret" ;
     "verify_hostname" := "False" ; "timeout" := "30" ]}.

Definition probe_cert : MonitorHTTP.t :=
  {| MonitorHTTP.url := "https://example.org/";
     MonitorHTTP.regexp := None;
     MonitorHTTP.regexp_text := "";
     MonitorHTTP.allowed_codes := [ 200 ];
     MonitorHTTP.certfile := Some "/etc/ssl/client.pem";
     MonitorHTTP.keyfile := Some "/etc/ssl/client.pem";
     MonitorHTTP.verify_hostname := false;
     MonitorHTTP.request_timeout := 30;
     MonitorHTTP.username := Some "monitor";
     MonitorHTTP.password := Some "secret" |}.

(** The plain configuration, accepting 404 alone. *)
Definition config_404 : config :=
  {[ "url" := "http://example.org/" ; "allowed_codes" := "404" ]}.

Definition probe_404 : MonitorHTTP.t :=
  {| MonitorHTTP.url := "http://example.org/";
     MonitorHTTP.regexp := None;
     MonitorHTTP.regexp_text := "";
     MonitorHTTP.allowed_codes := [ 404 ];
     MonitorHTTP.certfile := None;
     MonitorHTTP.keyfile := None;
     MonitorHTTP.verify_hostname := true;
     MonitorHTTP.request_timeout := 5;
     MonitorHTTP.username := None;
     MonitorHTTP.password := None |}.

(** A configuration whose pattern the sample engine is asked to refuse. *)
Definition config_bad_codes : config :=
  {[ "url" := "http://example.org/" ; "allowed_codes" := "200,ok" ]}.

(** The world [w] with the second reading of the clock moved by [days]
    whole days. *)
Definition days_later (days : Z) (w : MonitorHTTP.world) : MonitorHTTP.world :=
  {| MonitorHTTP.now_before := MonitorHTTP.now_before w;
     MonitorHTTP.now_after := MonitorHTTP.now_after w + days * MonitorHTTP.day_us;
     MonitorHTTP.requests_get := MonitorHTTP.requests_get w |}.

(** A TCP world whose socket opens, connects, and fails to close. *)
Definition close_fails : MonitorTCP.world :=
  {| MonitorTCP.socket_socket := None;
     MonitorTCP.settimeout := None;
     MonitorTCP.connect := fun _ _ => None;
     MonitorTCP.close := Some (Exc OSError "[Errno 5] Input/output error") |}.

(** A TCP configuration whose port is not a number, and one whose port is
    zero. *)
Definition config_port_name : config := {[ "host" := "example.org" ; "port" := "http" ]}.
Definition config_port_zero : config := {[ "host" := "example.org" ; "port" := "0" ]}.

(** A DNS configuration whose server and record type are present and
    empty, and the probe built from it. *)
Definition config_blank_server : config :=
  {[ "record" := "example.org" ; "server" := "" ; "record_type" := "" ]}.

Definition probe_blank_server : MonitorDNS.t :=
  {| MonitorDNS.path := "example.org";
     MonitorDNS.desired_val := None;
     MonitorDNS.server := Some "";
     MonitorDNS.params := [ "dig" ; "-t" ; "" ; "example.org" ; "+short" ];
     MonitorDNS.rectype := Some "" |}.

(** A DNS configuration whose expected value ends with a blank. *)
Definition config_padded_val : config :=
  {[ "record" := "example.org" ; "desired_val" := "192.0.2.1 " ]}.

Definition probe_padded_val : MonitorDNS.t :=
  {| MonitorDNS.path := "example.org";
     MonitorDNS.desired_val := Some "192.0.2.1 ";
     MonitorDNS.server := None;
     MonitorDNS.params := [ "dig" ; "example.org" ; "+short" ];
     MonitorDNS.rectype := None |}.

End SampleMore.

(* ===================================================================== *)
(** * Decimal numerals, for the proofs about [int] and [str]              *)
(* ===================================================================== *)

Module Numeral.

(** The number a decimal numeral denotes when read after the digits that
    made [acc], as [Py.digits] reads it. *)
Fixpoint value (acc : Z) (d : Decimal.uint) : Z :=
  match d with
  | Decimal.Nil => acc
  | Decimal.D0 d' => value (10 * acc + 0) d'
  | Decimal.D1 d' => value (10 * acc + 1) d'
  | Decimal.D2 d' => value (10 * acc + 2) d'
  | Decimal.D3 d' => value (10 * acc + 3) d'
  | Decimal.D4 d' => value (10 * acc + 4) d'
  | Decimal.D5 d' => value (10 * acc + 5) d'
  | Decimal.D6 d' => value (10 * acc + 6) d'
  | Decimal.D7 d' => value (10 * acc + 7) d'
  | Decimal.D8 d' => value (10 * acc + 8) d'
  | Decimal.D9 d' => value (10 * acc + 9) d'
  end.

(** No character of the string is a blank. *)
Fixpoint solid (blank : ascii -> bool) (s : string) : bool :=
  match s with
  | EmptyString => true
  | String c s' => negb (blank c) && solid blank s'
  end.

(** The string is empty or starts with a character that is not a blank. *)
Definition starts_solid (blank : ascii -> bool) (s : string) : Prop :=
  match s with
  | EmptyString => True
  | String c _ => blank c = false
  end.

End Numeral.

(** The value a run returns agrees with what it recorded: [True] after one
    [record_success], [False] after one [record_fail]. *)
Definition consistent (m : action bool) : Prop :=
  forall calls b, m = (calls, Ok b) ->
  exists msg,
    (b = true /\ calls = [ record_success msg ]) \/
    (b = false /\ calls = [ record_fail msg ]).

(* ===================================================================== *)
(** * Proof steps                                                         *)
(* ===================================================================== *)

(** One step of a constructor that completed: names the value of the first
    expression that could have raised. *)
Ltac step_result H :=
  match type of H with
  | rbind ?m _ = Ok _ =>
      let E := fresh "E" in
      destruct m eqn:E; cbn [rbind] in H; [|discriminate H]
  end.

(** Unfolds the recorder monad in the goal. *)
Ltac run_action :=
  unfold try_except, Recorder.bind, lift, emit, ret, MonitorTCP.call; cbn.

(* ===================================================================== *)
(** * Facts about the runtime                                             *)
(* ===================================================================== *)

Section py_facts.

Lemma mem_char_app (c : ascii) (a b : string) :
  mem_char c (a +:+ b) = mem_char c a || mem_char c b.
Proof.
  induction a as [|x a IH]; simpl; [reflexivity|].
  rewrite IH. apply orb_assoc.
Qed.

(** A string without the separator is one field. *)
Lemma split_without_sep (sep : ascii) (s : string) :
  mem_char sep s = false -> split sep s = [ s ].
Proof.
  induction s as [|c s IH]; simpl; [reflexivity|].
  intros H. apply orb_false_iff in H as [Hc Hs].
  rewrite Ascii.eqb_sym, Hc, (IH Hs). reflexivity.
Qed.

(** No escape sequence of [repr] holds a line feed. *)
Lemma repr_byte_no_LF (q c : ascii) :
  q = quote1 \/ q = quote2 -> mem_char LF (repr_byte q c) = false.
Proof.
  intros [-> | ->];
    destruct c as [[] [] [] [] [] [] [] []]; vm_compute; reflexivity.
Qed.

Lemma repr_body_no_LF (q : ascii) (b : string) :
  q = quote1 \/ q = quote2 -> mem_char LF (repr_body q b) = false.
Proof.
  intros Hq. induction b as [|c b IH]; simpl.
  - destruct Hq as [-> | ->]; reflexivity.
  - rewrite mem_char_app, IH, (repr_byte_no_LF q c Hq). reflexivity.
Qed.

Lemma repr_bytes_no_LF (b : string) : mem_char LF (repr_bytes b) = false.
Proof.
  unfold repr_bytes.
  destruct (mem_char quote1 b && negb (mem_char quote2 b)); simpl;
    apply repr_body_no_LF; auto.
Qed.

Context {rt : Runtime}.

(** On Python 3 the loop of [MonitorHost.run_test] sees one line, whatever
    the command printed: the [repr] of its output. *)
Lemma lines_of_py3 (output : string) :
  py_version = Py3 -> MonitorHost.lines_of output = [ repr_bytes output ].
Proof.
  intros Hv. unfold MonitorHost.lines_of, str_of_output. rewrite Hv.
  apply split_without_sep, repr_bytes_no_LF.
Qed.

Lemma lines_of_py2 (output : string) :
  py_version = Py2 -> MonitorHost.lines_of output = split LF output.
Proof.
  intros Hv. unfold MonitorHost.lines_of, str_of_output. rewrite Hv. reflexivity.
Qed.

End py_facts.

(* ===================================================================== *)
(** * The loop of MonitorHost.run_test                                    *)
(* ===================================================================== *)

Section host_scan.
Context {rt : Runtime}.
Import HostOutput.

(** What the loop leaves in [success] and [pingtime]: whether a line held
    the reply pattern, and the time captured last on the other lines. *)
Lemma scan_result (r r2 : regex) (lines : list string) (success : bool) (pingtime : value) :
  binds_ms r2 ->
  MonitorHost.scan r r2 lines success pingtime =
    Ok (success || existsb (replied r) lines,
        match last_time r2 (silent_lines r lines) with
        | Some ms => VStr ms
        | None => pingtime
        end).
Proof.
  intros Hms. revert success pingtime.
  induction lines as [|line rest IH]; intros success pingtime.
  - simpl. rewrite orb_false_r. reflexivity.
  - unfold silent_lines in *. cbn [MonitorHost.scan existsb List.filter].
    unfold replied at 1 3.
    destruct (re_search r line) as [m|] eqn:Hr; cbn [negb].
    + rewrite IH, orb_true_r. reflexivity.
    + unfold last_time in *.
      change (omap (time_in r2) (line :: ?l))
        with (match time_in r2 line with
              | Some ms => ms :: omap (time_in r2) l
              | None => omap (time_in r2) l
              end).
      unfold time_in at 1.
      destruct (re_search r2 line) as [m2|] eqn:Hr2.
      * destruct (Hms _ _ Hr2) as [ms Hg]. unfold group. rewrite Hg.
        cbn [rbind]. rewrite IH, last_cons.
        destruct (last _); reflexivity.
      * rewrite IH. reflexivity.
Qed.

(** On one line the two patterns exclude each other: a reply leaves
    [pingtime] at its initial value. *)
Lemma scan_one_line (r r2 : regex) (line : string) (pingtime : value) :
  MonitorHost.scan r r2 [ line ] false VZero = Ok (true, pingtime) ->
  pingtime = VZero.
Proof.
  simpl. destruct (re_search r line); [congruence|].
  destruct (re_search r2 line) as [m|]; [|congruence].
  destruct (group m "ms"); simpl; congruence.
Qed.

End host_scan.

(* ===================================================================== *)
(** * MonitorHost.run_test                                                *)
(* ===================================================================== *)

Section host_run.
Context {rt : Runtime}.
Import HostOutput.

(** The run once the command has printed [output]. *)
Lemma host_run_on_output (self : MonitorHost.t) (w : MonitorHost.world) (line output : string) :
  re_compiles (MonitorHost.ping_regexp self) = true ->
  re_compiles (MonitorHost.time_regexp self) = true ->
  binds_ms (Regex (MonitorHost.time_regexp self)) ->
  str_mod (MonitorHost.ping_command self) (MonitorHost.host self) = Ok line ->
  MonitorHost.check_output w (split " " line) = Ok output ->
  let r := Regex (MonitorHost.ping_regexp self) in
  let r2 := Regex (MonitorHost.time_regexp self) in
  let lines := MonitorHost.lines_of output in
  MonitorHost.run_test w self =
    if existsb (replied r) lines
    then ([ record_success (time_message (last_time r2 (silent_lines r lines))) ], Ok true)
    else ([ record_fail None ], Ok false).
Proof.
  intros Hc1 Hc2 Hms Hmod Hout r r2 lines.
  unfold MonitorHost.run_test, re_compile. rewrite Hc1, Hc2, Hmod.
  cbn [rbind lift Recorder.bind]. rewrite Hout. cbn [rbind].
  fold r r2 lines. rewrite (scan_result r r2 lines false VZero Hms).
  cbn [orb]. run_action.
  destruct (existsb (replied r) lines) eqn:Hreply; [|reflexivity].
  destruct py_version eqn:Hv.
  - destruct (last_time r2 (silent_lines r lines)); reflexivity.
  - subst lines. rewrite (lines_of_py3 output Hv) in *.
    cbn in Hreply. rewrite orb_false_r in Hreply.
    unfold silent_lines. cbn. rewrite Hreply. reflexivity.
Qed.

(** X3: whatever the ping command does, and whatever it prints, the run of
    a ping probe whose two patterns compile returns without raising, after
    exactly one call to the recorder. *)
Lemma host_run_records_once (self : MonitorHost.t) (w : MonitorHost.world) :
  re_compiles (MonitorHost.ping_regexp self) = true ->
  re_compiles (MonitorHost.time_regexp self) = true ->
  exists (c : call) (b : bool), MonitorHost.run_test w self = ([ c ], Ok b).
Proof.
  intros Hc1 Hc2.
  unfold MonitorHost.run_test, re_compile. rewrite Hc1, Hc2.
  cbn [lift Recorder.bind].
  destruct (str_mod _ _) as [line|e]; cbn [rbind]; [|run_action; eauto].
  destruct (MonitorHost.check_output w _) as [output|e]; cbn [rbind];
    [|run_action; eauto].
  destruct (MonitorHost.scan _ _ _ _ _) as [[success pingtime]|e] eqn:Hscan;
    [|run_action; eauto].
  destruct success; [|run_action; eauto].
  destruct py_version eqn:Hv.
  - run_action. destruct pingtime; cbn; eauto.
  - rewrite (lines_of_py3 output Hv) in Hscan.
    apply scan_one_line in Hscan as ->.
    run_action. eauto.
Qed.

End host_run.

(** X26: on Python 2, for a ping probe and any output of the command, read
    line by line: a line holding the reply pattern makes the run a success;
    the time pattern is consulted on the other lines only, and the time it
    captured last there is the message of the success, in milliseconds (no
    message when it captured none); when no line holds the reply pattern
    the run is a failure without message. *)
Theorem host_run_py2_reads_output_lines {rt : Runtime}
    (self : MonitorHost.t) (w : MonitorHost.world) (line output : string) :
  py_version = Py2 ->
  re_compiles (MonitorHost.ping_regexp self) = true ->
  re_compiles (MonitorHost.time_regexp self) = true ->
  HostOutput.binds_ms (Regex (MonitorHost.time_regexp self)) ->
  str_mod (MonitorHost.ping_command self) (MonitorHost.host self) = Ok line ->
  MonitorHost.check_output w (split " " line) = Ok output ->
  let r := Regex (MonitorHost.ping_regexp self) in
  let r2 := Regex (MonitorHost.time_regexp self) in
  let lines := split LF output in
  (existsb (HostOutput.replied r) lines = true ->
   succeeded (MonitorHost.run_test w self)
     (HostOutput.time_message
        (HostOutput.last_time r2 (HostOutput.silent_lines r lines)))) /\
  (existsb (HostOutput.replied r) lines = false ->
   failed (MonitorHost.run_test w self) None).
Proof.
  intros Hv Hc1 Hc2 Hms Hmod Hout r r2 lines.
  pose proof (host_run_on_output self w line output Hc1 Hc2 Hms Hmod Hout) as Hrun.
  cbv zeta in Hrun. rewrite (lines_of_py2 output Hv) in Hrun. fold r r2 lines in Hrun.
  unfold succeeded, failed.
  split; intros Hreply; rewrite Hreply in Hrun; exact Hrun.
Qed.

(** What the sample engine finds, it found at some position. *)
Lemma search_from_here {A} (here : string -> option A) (s : string) (a : A) :
  Demo.search_from here s = Some a -> exists s', here s' = Some a.
Proof.
  induction s as [|c s IH]; simpl; destruct (here _) eqn:Hhere; intros H.
  - exists ""; congruence.
  - discriminate.
  - eexists; rewrite Hhere; exact H.
  - auto.
Qed.

(** The sample engine binds [ms] wherever the POSIX time pattern matches. *)
Lemma demo_binds_ms (v : version) (platform : string) :
  @HostOutput.binds_ms (Demo.runtime v platform) (Regex MonitorHost.posix_time_regexp).
Proof.
  intros line m H. cbn [re_search Demo.runtime] in H.
  unfold Demo.search in H. cbn [pattern] in H.
  replace (String.eqb MonitorHost.posix_time_regexp MonitorHost.win_time_regexp)
    with false in H by (vm_compute; reflexivity).
  rewrite String.eqb_refl in H.
  apply search_from_here in H as [s' H].
  unfold Demo.posix_time_here in H.
  destruct (Demo.drop_prefix _ s') as [rest|]; [|discriminate].
  destruct (Demo.span _ rest) as [lo rest1].
  destruct rest1 as [|c rest2]; [discriminate|].
  destruct (Ascii.eqb c "/") eqn:Hc.
  - apply Ascii.eqb_eq in Hc as ->.
    destruct (Demo.span _ rest2) as [ms rest3].
    destruct (_ && _); [|discriminate].
    injection H as <-. exists ms. reflexivity.
  - destruct c as [[] [] [] [] [] [] [] []]; try discriminate H; discriminate Hc.
Qed.

(** On the BSD host, running Python 2, the probe of
    [SampleHost.host_config] reports the average of the sample output: the
    theorem above at a concrete run. *)
Lemma host_run_py2_reads_output_lines_witness :
  MonitorHost.__init__ (rt := Sample.bsd_py2) "ping" SampleHost.host_config = Ok SampleHost.bsd_ping /\
  succeeded (MonitorHost.run_test (rt := Sample.bsd_py2) SampleHost.ping_answers SampleHost.bsd_ping)
    (Some (Text "12.5ms")).
Proof.
  split; [vm_compute; reflexivity|].
  exact (proj1 (host_run_py2_reads_output_lines (rt := Sample.bsd_py2)
                  SampleHost.bsd_ping SampleHost.ping_answers
                  "ping -c1 -t5 example.org" Demo.ping_output
                  eq_refl eq_refl eq_refl (demo_binds_ms Py2 "freebsd13") eq_refl eq_refl)
               eq_refl).
Defined.

(** C4, where the code departs from it: on Python 3 [check_output] returns
    [bytes], and [str(output)] is its [repr], one line.  The sample output
    has a line that holds the reply pattern and, after it, a line without
    reply on which the time pattern captures 12.5; the probe built on Linux
    records the success without message, the captured time being lost. *)
Theorem host_run_py3_loses_the_captured_time :
  let rt := Sample.linux_py3 in
  let r := Regex (MonitorHost.ping_regexp SampleHost.linux_ping) in
  let r2 := Regex (MonitorHost.time_regexp SampleHost.linux_ping) in
  MonitorHost.__init__ "ping" SampleHost.host_config = Ok SampleHost.linux_ping /\
  map (HostOutput.replied r) (split LF Demo.ping_output) = [ false ; true ; false ; false ] /\
  map (HostOutput.time_in r2) (split LF Demo.ping_output) = [ None ; None ; Some "12.5" ; None ] /\
  MonitorHost.run_test SampleHost.ping_answers SampleHost.linux_ping
    = ([ record_success None ], Ok true).
Proof. cbv zeta. split; [|split; [|split]]; vm_compute; reflexivity. Qed.

(* ===================================================================== *)
(** * MonitorHTTP                                                         *)
(* ===================================================================== *)

Section http.
Context {rt : Runtime}.

(** What a constructed HTTP probe holds of its configuration. *)
Lemma http_init_inv (name : string) (cfg : config) (self : MonitorHTTP.t) :
  MonitorHTTP.__init__ name cfg = Ok self ->
  let pat := default "" (cfg !! "regexp") in
  cfg !! "url" = Some (MonitorHTTP.url self) /\
  MonitorHTTP.regexp_text self = pat /\
  MonitorHTTP.regexp self = (if String.eqb pat "" then None else Some (Regex pat)) /\
  match cfg !! "allowed_codes" with
  | Some codes =>
      map_result (fun x => int py_version (strip isspace_config x)) (split "," codes)
      = Ok (MonitorHTTP.allowed_codes self)
  | None => MonitorHTTP.allowed_codes self = [ 200 ]
  end.
Proof.
  unfold MonitorHTTP.__init__, Monitor.__init__.
  cbn [rbind]. cbv zeta. intros H.
  step_result H. step_result H. step_result H. step_result H.
  injection H as <-. cbn.
  unfold getitem in E. change (default "" (cfg !! "regexp"))
    with (match cfg !! "regexp" with Some r => r | None => "" end).
  repeat split.
  - destruct (cfg !! "url"); [injection E as ->; reflexivity|discriminate E].
  - destruct (String.eqb _ "") eqn:Hpat in E1; cbn [negb] in E1.
    + apply String.eqb_eq in Hpat. injection E1 as <-. symmetry. exact Hpat.
    + unfold re_compile in E1. destruct (re_compiles _); [|discriminate E1].
      injection E1 as <-. reflexivity.
  - destruct (String.eqb _ "") eqn:Hpat; cbn [negb] in E1.
    + injection E1 as <-. reflexivity.
    + unfold re_compile in E1. destruct (re_compiles _); [|discriminate E1].
      injection E1 as <-. reflexivity.
  - destruct (cfg !! "allowed_codes"); [exact E0|congruence].
Qed.

Lemma allowed_iff (code : Z) (codes : list Z) :
  existsb (Z.eqb code) codes = true <-> In code codes.
Proof.
  rewrite existsb_exists. split.
  - intros (x & Hx & Heq). apply Z.eqb_eq in Heq as ->. exact Hx.
  - intros H. exists code. split; [exact H|apply Z.eqb_refl].
Qed.

(** The run once the server has answered with [r]. *)
Lemma http_run_on_response (self : MonitorHTTP.t) (w : MonitorHTTP.world)
    (r : MonitorHTTP.response) :
  MonitorHTTP.requests_get w (MonitorHTTP.request_of self) = Ok r ->
  let load_time := MonitorHTTP.now_after w - MonitorHTTP.now_before w in
  let timed := record_success (Some (Text (MonitorHTTP.success_message r load_time))) in
  MonitorHTTP.run_test w self =
    if negb (existsb (Z.eqb (MonitorHTTP.status_code r)) (MonitorHTTP.allowed_codes self))
    then ([ record_fail (Some (Text (MonitorHTTP.status_message self r))) ], Ok false)
    else match MonitorHTTP.regexp self with
         | None => ([ timed ], Ok true)
         | Some re =>
             match re_search re (MonitorHTTP.text r) with
             | Some _ => ([ timed ], Ok true)
             | None =>
                 ([ record_fail (Some (Text (MonitorHTTP.nomatch_message self r))) ], Ok false)
             end
         end.
Proof.
  intros Hget. unfold MonitorHTTP.run_test. rewrite Hget. run_action.
  destruct (negb _); [reflexivity|].
  destruct (MonitorHTTP.regexp self) as [re|]; [|reflexivity].
  destruct (re_search re _); reflexivity.
Qed.

(** X1: whatever [requests.get] does, the run of an HTTP probe returns
    without raising, after exactly one call to the recorder. *)
Lemma http_run_records_once (self : MonitorHTTP.t) (w : MonitorHTTP.world) :
  exists (c : call) (b : bool), MonitorHTTP.run_test w self = ([ c ], Ok b).
Proof.
  destruct (MonitorHTTP.requests_get w (MonitorHTTP.request_of self)) as [r|e] eqn:Hget.
  - rewrite (http_run_on_response self w r Hget). cbv zeta.
    destruct (negb _); [eauto|].
    destruct (MonitorHTTP.regexp self) as [re|]; [|eauto].
    destruct (re_search re _); eauto.
  - unfold MonitorHTTP.run_test. rewrite Hget. run_action.
    destruct (is_RequestException e); eauto.
Qed.

End http.

(** X25: when the server answers a constructed HTTP probe, a status code
    outside [allowed_codes] is recorded as a failure whose message gives the
    status code, the reason and the allowed codes; an allowed status code
    with no pattern configured is recorded as a success whose message is the
    status code, [ in ], and ["%0.2f" % (seconds + microseconds / 1000000.2)]
    computed in binary64 from the [seconds] and [microseconds] attributes of
    the difference of the two clock readings, and [s]; with a pattern
    configured, a body the pattern is found in is recorded as that same
    success, and any other body as a failure whose message gives the status
    code, the reason and the pattern. *)
Theorem http_run_classifies_response {rt : Runtime}
    (name : string) (cfg : config) (self : MonitorHTTP.t)
    (w : MonitorHTTP.world) (r : MonitorHTTP.response) :
  (forall seconds microseconds,
     float_2f seconds microseconds = PyFloat.seconds_2f seconds microseconds) ->
  MonitorHTTP.__init__ name cfg = Ok self ->
  MonitorHTTP.requests_get w (MonitorHTTP.request_of self) = Ok r ->
  let code := MonitorHTTP.status_code r in
  let allowed := MonitorHTTP.allowed_codes self in
  let pat := default "" (cfg !! "regexp") in
  let load_time := MonitorHTTP.now_after w - MonitorHTTP.now_before w in
  let timed :=
    Some (Text (str_int code +:+ " in "
                +:+ PyFloat.seconds_2f (load_time mod 86400000000 / 1000000)
                      (load_time mod 86400000000 mod 1000000) +:+ "s")) in
  (~ In code allowed ->
   failed (MonitorHTTP.run_test w self)
     (Some (Text ("Got status '" +:+ str_int code +:+ " " +:+ MonitorHTTP.reason r
                  +:+ "' instead of " +:+ str_int_list allowed)))) /\
  (In code allowed -> pat = "" ->
   succeeded (MonitorHTTP.run_test w self) timed) /\
  (In code allowed -> pat <> "" ->
   forall m, re_search (Regex pat) (MonitorHTTP.text r) = Some m ->
   succeeded (MonitorHTTP.run_test w self) timed) /\
  (In code allowed -> pat <> "" ->
   re_search (Regex pat) (MonitorHTTP.text r) = None ->
   failed (MonitorHTTP.run_test w self)
     (Some (Text ("Got '" +:+ str_int code +:+ " " +:+ MonitorHTTP.reason r
                  +:+ "' but couldn't match /" +:+ pat +:+ "/ in page.")))).
Proof.
  intros Hfloat Hinit Hget code allowed pat load_time timed.
  destruct (http_init_inv name cfg self Hinit) as (_ & Htext & Hre & _).
  fold pat in Htext, Hre.
  pose proof (http_run_on_response self w r Hget) as Hrun. cbv zeta in Hrun.
  fold code allowed load_time in Hrun.
  unfold failed, succeeded, MonitorHTTP.status_message, MonitorHTTP.nomatch_message,
    MonitorHTTP.success_message in *.
  rewrite Hfloat in Hrun.
  change (MonitorHTTP.timedelta_seconds load_time)
    with (load_time mod 86400000000 / 1000000) in Hrun.
  change (MonitorHTTP.timedelta_microseconds load_time)
    with (load_time mod 86400000000 mod 1000000) in Hrun.
  fold code allowed in Hrun |- *. fold timed in Hrun. rewrite Htext, Hre in Hrun.
  repeat split.
  - intros Hout. rewrite Hrun.
    destruct (existsb (Z.eqb code) allowed) eqn:Hin; [|reflexivity].
    apply allowed_iff in Hin. contradiction.
  - intros Hin ->. apply allowed_iff in Hin. rewrite Hrun, Hin. reflexivity.
  - intros Hin Hpat m Hm. apply allowed_iff in Hin. rewrite Hrun, Hin. cbn [negb].
    apply String.eqb_neq in Hpat. rewrite Hpat, Hm. reflexivity.
  - intros Hin Hpat Hm. apply allowed_iff in Hin. rewrite Hrun, Hin. cbn [negb].
    apply String.eqb_neq in Hpat. rewrite Hpat, Hm. reflexivity.
Qed.

(** The four cases of the theorem above at concrete runs: a 404 and a 200
    for the probe without pattern, a body with and without [OK] for the
    probe with the pattern; the answer comes after 1.234567 s. *)
Lemma http_run_classifies_response_witness :
  let rt := Sample.linux_py3 in
  failed (MonitorHTTP.run_test (SampleHTTP.answers 404 "Not Found" "") SampleHTTP.probe)
    (Some (Text "Got status '404 Not Found' instead of [200]")) /\
  succeeded (MonitorHTTP.run_test (SampleHTTP.answers 200 "OK" "") SampleHTTP.probe)
    (Some (Text "200 in 1.23s")) /\
  succeeded (MonitorHTTP.run_test (SampleHTTP.answers 200 "OK" "all OK") SampleHTTP.probe_pattern)
    (Some (Text "200 in 1.23s")) /\
  failed (MonitorHTTP.run_test (SampleHTTP.answers 200 "OK" "down") SampleHTTP.probe_pattern)
    (Some (Text "Got '200 OK' but couldn't match /OK/ in page.")).
Proof.
  cbv zeta.
  pose (plain := fun code reason body =>
    http_run_classifies_response (rt := Sample.linux_py3) "web" SampleHTTP.config_plain
      SampleHTTP.probe (SampleHTTP.answers code reason body)
      {| MonitorHTTP.status_code := code; MonitorHTTP.reason := reason;
         MonitorHTTP.text := body |} (fun _ _ => eq_refl) eq_refl eq_refl).
  pose (pattern := fun body =>
    http_run_classifies_response (rt := Sample.linux_py3) "web" SampleHTTP.config_pattern
      SampleHTTP.probe_pattern (SampleHTTP.answers 200 "OK" body)
      {| MonitorHTTP.status_code := 200; MonitorHTTP.reason := "OK";
         MonitorHTTP.text := body |} (fun _ _ => eq_refl) eq_refl eq_refl).
  split; [|split; [|split]].
  - apply (proj1 (plain 404 "Not Found" "")). cbn. intros [H|[]]. discriminate H.
  - apply (proj1 (proj2 (plain 200 "OK" ""))); [cbn; auto|reflexivity].
  - apply (proj1 (proj2 (proj2 (pattern "all OK"))) (or_introl eq_refl)) with (m := []);
      [discriminate|reflexivity].
  - apply (proj2 (proj2 (proj2 (pattern "down")))); [cbn; auto|discriminate|reflexivity].
Defined.

(** C3, where the code departs from it: the message of a success does not
    give the elapsed time when the two clock readings are a day or more
    apart, or the second is before the first.  The run adds the [seconds]
    and [microseconds] attributes of their difference and leaves [days]
    out; with the clock set back by one second during the request, the
    difference is minus one day plus 86399 seconds, and the probe reports
    86399.00 seconds. *)
Theorem http_run_reports_a_day_when_clock_set_back :
  MonitorHTTP.__init__ (rt := Sample.linux_py3) "web" SampleHTTP.config_plain
    = Ok SampleHTTP.probe /\
  MonitorHTTP.now_after SampleHTTP.clock_set_back
    - MonitorHTTP.now_before SampleHTTP.clock_set_back = - 1000000 /\
  MonitorHTTP.run_test (rt := Sample.linux_py3) SampleHTTP.clock_set_back SampleHTTP.probe
    = ([ record_success (Some (Text "200 in 86399.00s")) ], Ok true).
Proof. split; [|split]; vm_compute; reflexivity. Qed.

(* ===================================================================== *)
(** * MonitorDNS                                                          *)
(* ===================================================================== *)

Section dns.
Context {rt : Runtime}.

(** What a constructed DNS probe holds of its configuration. *)
Lemma dns_init_inv (name : string) (cfg : config) (self : MonitorDNS.t) :
  MonitorDNS.__init__ name cfg = Ok self ->
  cfg !! "record" = Some (MonitorDNS.path self) /\
  MonitorDNS.path self <> "" /\
  MonitorDNS.desired_val self = cfg !! "desired_val" /\
  MonitorDNS.server self = cfg !! "server" /\
  MonitorDNS.rectype self = cfg !! "record_type".
Proof.
  unfold MonitorDNS.__init__, Monitor.__init__, getitem. cbn [rbind].
  destruct (cfg !! "record") as [record|]; cbn [rcatch rbind]; [|discriminate].
  destruct (String.eqb record "") eqn:Hrecord; [discriminate|].
  apply String.eqb_neq in Hrecord.
  intros H. injection H as <-. cbn. auto.
Qed.

(** The run once the command has printed [output] and it decoded to [text]. *)
Lemma dns_run_on_output (self : MonitorDNS.t) (w : MonitorDNS.world) (output text : string) :
  MonitorDNS.check_output w (MonitorDNS.params self) = Ok output ->
  decode_utf8 output = Ok text ->
  let result := strip isspace_text text in
  MonitorDNS.run_test w self =
    if String.eqb result "" then
      ([ record_fail (Some (Text ("failed to resolve " +:+ MonitorDNS.path self))) ], Ok false)
    else if MonitorDNS.unexpected self result then
      ([ record_fail (Some (Text ("resolved DNS record is unexpected: "
                                  +:+ str_opt (MonitorDNS.desired_val self)
                                  +:+ " != " +:+ result))) ], Ok false)
    else ([ record_success None ], Ok true).
Proof.
  intros Hout Hdec result. unfold MonitorDNS.run_test.
  rewrite Hout. cbn [lift Recorder.bind]. rewrite Hdec. run_action.
  fold result. destruct (String.eqb result ""); [reflexivity|].
  destruct (MonitorDNS.unexpected self result); reflexivity.
Qed.

(** X2: whatever the resolver command does, and whatever it prints, the
    run of a DNS probe returns without raising, after exactly one call to
    the recorder. *)
Lemma dns_run_records_once (self : MonitorDNS.t) (w : MonitorDNS.world) :
  exists (c : call) (b : bool), MonitorDNS.run_test w self = ([ c ], Ok b).
Proof.
  destruct (MonitorDNS.check_output w (MonitorDNS.params self)) as [output|e] eqn:Hout.
  - destruct (decode_utf8 output) as [text|e] eqn:Hdec.
    + rewrite (dns_run_on_output self w output text Hout Hdec). cbv zeta.
      destruct (String.eqb _ ""); [eauto|].
      destruct (MonitorDNS.unexpected self _); eauto.
    + unfold MonitorDNS.run_test. rewrite Hout. cbn [lift Recorder.bind].
      rewrite Hdec. run_action. eauto.
  - unfold MonitorDNS.run_test. rewrite Hout. run_action. eauto.
Qed.

End dns.

(** C5, as the code has it, for every run of a constructed DNS probe: when
    the command raises or its output does not decode, the run is recorded
    as a failure naming the command and the exception; otherwise an output
    that is empty once stripped is recorded as a failure naming the record;
    when [desired_val] is configured with a non-empty value and the stripped
    output differs from it, the run is recorded as a failure whose message
    holds both values; in every other case the run is recorded as a success
    without message. *)
Theorem dns_run_classifies_output {rt : Runtime}
    (name : string) (cfg : config) (self : MonitorDNS.t) (w : MonitorDNS.world) :
  MonitorDNS.__init__ name cfg = Ok self ->
  let raised (e : exc) :=
    failed (MonitorDNS.run_test w self)
      (Some (Text ("Exception while executing dig: " +:+ exc_str e))) in
  match MonitorDNS.check_output w (MonitorDNS.params self) with
  | Raise e => raised e
  | Ok output =>
      match decode_utf8 output with
      | Raise e => raised e
      | Ok text =>
          let result := strip isspace_text text in
          (result = "" ->
           exists record, cfg !! "record" = Some record /\
             failed (MonitorDNS.run_test w self)
               (Some (Text ("failed to resolve " +:+ record)))) /\
          (result <> "" ->
           forall d, cfg !! "desired_val" = Some d -> d <> "" -> result <> d ->
             failed (MonitorDNS.run_test w self)
               (Some (Text ("resolved DNS record is unexpected: "
                            +:+ d +:+ " != " +:+ result)))) /\
          (result <> "" ->
           (forall d, cfg !! "desired_val" = Some d -> d = "" \/ d = result) ->
           succeeded (MonitorDNS.run_test w self) None)
      end
  end.
Proof.
  intros Hinit raised. subst raised. cbv beta.
  destruct (MonitorDNS.check_output w (MonitorDNS.params self)) as [output|e] eqn:Hout;
    [|unfold failed, MonitorDNS.run_test; rewrite Hout; reflexivity].
  destruct (decode_utf8 output) as [text|e] eqn:Hdec;
    [|unfold failed, MonitorDNS.run_test; rewrite Hout; cbn [lift Recorder.bind];
      rewrite Hdec; reflexivity].
  intros result.
  destruct (dns_init_inv name cfg self Hinit) as (Hrecord & _ & Hval & _).
  pose proof (dns_run_on_output self w output text Hout Hdec) as Hrun.
  cbv zeta in Hrun. fold result in Hrun.
  unfold failed, succeeded, MonitorDNS.unexpected in *. rewrite Hval in Hrun.
  split; [|split].
  - intros Hempty. exists (MonitorDNS.path self). split; [exact Hrecord|].
    rewrite Hrun, Hempty. reflexivity.
  - intros Hne d Hd Hdne Hdiff. rewrite Hrun, Hd.
    apply String.eqb_neq in Hne, Hdne, Hdiff. unfold truthy.
    rewrite Hne, Hdne, Hdiff. reflexivity.
  - intros Hne Hd. rewrite Hrun.
    apply String.eqb_neq in Hne. rewrite Hne.
    destruct (cfg !! "desired_val") as [d|]; [|reflexivity].
    destruct (Hd d eq_refl) as [-> | ->]; [reflexivity|].
    rewrite String.eqb_refl, andb_false_r. reflexivity.
Qed.

(** The theorem above where the resolved address is not the configured
    one, and where [dig] is not installed. *)
Lemma dns_run_classifies_output_witness :
  failed (MonitorDNS.run_test (rt := Sample.linux_py3)
            (SampleDNS.prints SampleDNS.address_line) SampleDNS.probe_val)
    (Some (Text "resolved DNS record is unexpected: 192.0.2.7 != 192.0.2.1")) /\
  failed (MonitorDNS.run_test (rt := Sample.linux_py3) SampleDNS.no_dig SampleDNS.probe_val)
    (Some (Text "Exception while executing dig: [Errno 2] No such file or directory")).
Proof.
  split.
  - refine (proj1 (proj2 (dns_run_classifies_output (rt := Sample.linux_py3)
                            "dns" SampleDNS.config_val SampleDNS.probe_val
                            (SampleDNS.prints SampleDNS.address_line) eq_refl))
              _ "192.0.2.7" eq_refl _ _);
      vm_compute; discriminate.
  - exact (dns_run_classifies_output (rt := Sample.linux_py3)
             "dns" SampleDNS.config_val SampleDNS.probe_val SampleDNS.no_dig eq_refl).
Defined.

(** C5 as stated fails where [desired_val] is configured as the empty
    string: the resolved address differs from it, and the run is recorded
    as a success. *)
Lemma dns_set_and_different_yet_success :
  SampleDNS.config_empty_val !! "desired_val" = Some "" /\
  MonitorDNS.__init__ "dns" SampleDNS.config_empty_val
    = Ok SampleDNS.probe_empty_val /\
  strip isspace_text SampleDNS.address_line = "192.0.2.1" /\
  String.eqb "192.0.2.1" "" = false /\
  MonitorDNS.run_test (rt := Sample.linux_py3)
    (SampleDNS.prints SampleDNS.address_line) SampleDNS.probe_empty_val
    = ([ record_success None ], Ok true).
Proof.
  repeat split; vm_compute; reflexivity.
Qed.

(** C9: a DNS probe whose [desired_val] is configured as the empty string
    never takes the comparison branch, so every output that is not empty
    once stripped is recorded as a success, whatever it is. *)
Theorem dns_empty_desired_val_accepts_any_output {rt : Runtime}
    (name : string) (cfg : config) (self : MonitorDNS.t)
    (w : MonitorDNS.world) (output text : string) :
  MonitorDNS.__init__ name cfg = Ok self ->
  cfg !! "desired_val" = Some "" ->
  MonitorDNS.check_output w (MonitorDNS.params self) = Ok output ->
  decode_utf8 output = Ok text ->
  strip isspace_text text <> "" ->
  (forall result, MonitorDNS.unexpected self result = false) /\
  succeeded (MonitorDNS.run_test w self) None.
Proof.
  intros Hinit Hval Hout Hdec Hne.
  destruct (dns_init_inv name cfg self Hinit) as (_ & _ & Hself & _).
  assert (Hskip : forall result, MonitorDNS.unexpected self result = false).
  { intros result. unfold MonitorDNS.unexpected. rewrite Hself, Hval. reflexivity. }
  split; [exact Hskip|].
  unfold succeeded. rewrite (dns_run_on_output self w output text Hout Hdec). cbv zeta.
  apply String.eqb_neq in Hne. rewrite Hne, Hskip. reflexivity.
Qed.

(** The theorem above at the sample probe: the address it resolves is
    accepted although it is not the empty string that was configured. *)
Lemma dns_empty_desired_val_accepts_any_output_witness :
  succeeded (MonitorDNS.run_test (rt := Sample.linux_py3)
               (SampleDNS.prints SampleDNS.address_line) SampleDNS.probe_empty_val) None.
Proof.
  apply (proj2 (dns_empty_desired_val_accepts_any_output (rt := Sample.linux_py3)
                  "dns" SampleDNS.config_empty_val SampleDNS.probe_empty_val
                  (SampleDNS.prints SampleDNS.address_line)
                  SampleDNS.address_line SampleDNS.address_line
                  eq_refl eq_refl eq_refl eq_refl ltac:(vm_compute; discriminate))).
Defined.

(* ===================================================================== *)
(** * MonitorTCP                                                          *)
(* ===================================================================== *)

Section tcp.
Context {rt : Runtime}.

Lemma int_empty (v : version) : int v "" = Raise (invalid_literal "").
Proof. destruct v; reflexivity. Qed.

(** What a constructed TCP probe holds of its configuration. *)
Lemma tcp_init_inv (name : string) (cfg : config) (self : MonitorTCP.t) :
  MonitorTCP.__init__ name cfg = Ok self ->
  exists p,
    cfg !! "host" = Some (MonitorTCP.host self) /\
    cfg !! "port" = Some p /\
    int py_version p = Ok (MonitorTCP.port self) /\
    MonitorTCP.host self <> "" /\
    0 < MonitorTCP.port self.
Proof.
  unfold MonitorTCP.__init__, Monitor.__init__, getitem. cbn [rbind].
  destruct (cfg !! "host") as [h|]; cbn [rcatch rbind]; [|discriminate].
  destruct (cfg !! "port") as [p|]; cbn [rcatch rbind]; [|discriminate].
  destruct (int py_version p) as [n|] eqn:Hint; cbn [rcatch rbind]; [|discriminate].
  destruct (String.eqb h "") eqn:Hh; [discriminate|].
  destruct (n <=? 0) eqn:Hn; [discriminate|].
  intros H. injection H as <-. cbn.
  apply String.eqb_neq in Hh. apply Z.leb_gt in Hn.
  exists p. auto.
Qed.

(** A socket that cannot be created: the exception leaves [run_test], and
    the recorder hears nothing. *)
Lemma tcp_run_socket_fails (w : MonitorTCP.world) (self : MonitorTCP.t) (e : exc) :
  MonitorTCP.socket_socket w = Some e ->
  MonitorTCP.run_test w self = ([], Raise e).
Proof. intros H. unfold MonitorTCP.run_test. rewrite H. reflexivity. Qed.

(** X4: with a socket that was created and closes, the run of a TCP probe
    returns without raising, after exactly one call to the recorder,
    whatever [settimeout] and [connect] do. *)
Lemma tcp_run_records_once (w : MonitorTCP.world) (self : MonitorTCP.t) :
  MonitorTCP.socket_socket w = None ->
  MonitorTCP.close w = None ->
  exists (c : call) (b : bool), MonitorTCP.run_test w self = ([ c ], Ok b).
Proof.
  intros Hs Hc. unfold MonitorTCP.run_test. rewrite Hs, Hc.
  destruct (MonitorTCP.settimeout w); [run_action; eauto|].
  destruct (MonitorTCP.connect w _ _); run_action; eauto.
Qed.

End tcp.

(** C1, where the code departs from it: a TCP probe built from a valid
    configuration, run in a process that cannot create a socket.
    [socket.socket] is called before the [try] block of
    [MonitorTCP.run_test], so its [OSError] leaves [run_test]. *)
Theorem tcp_run_raises_without_socket :
  MonitorTCP.__init__ (rt := Sample.linux_py3) "web" SampleTCP.tcp_config
    = Ok SampleTCP.probe /\
  outcome (MonitorTCP.run_test SampleTCP.no_descriptors SampleTCP.probe)
    = Raise SampleTCP.too_many_files.
Proof. split; vm_compute; reflexivity. Qed.

(** C2, where the code departs from it: the same run makes no call to the
    recorder, neither [record_success] nor [record_fail]. *)
Theorem tcp_run_records_nothing_without_socket :
  MonitorTCP.__init__ (rt := Sample.linux_py3) "web" SampleTCP.tcp_config
    = Ok SampleTCP.probe /\
  calls (MonitorTCP.run_test SampleTCP.no_descriptors SampleTCP.probe) = [].
Proof. split; vm_compute; reflexivity. Qed.

(* ===================================================================== *)
(** * The constructors                                                    *)
(* ===================================================================== *)

Section constructors.
Context {rt : Runtime}.

(** What a constructed ping probe holds: the configured host, and what the
    platform branch chose. *)
Lemma host_init_inv (name : string) (cfg : config) (self : MonitorHost.t) :
  MonitorHost.__init__ name cfg = Ok self ->
  let ping_ttl := default "5" (cfg !! "ping_ttl") in
  cfg !! "host" = Some (MonitorHost.host self) /\
  MonitorHost.host self <> "" /\
  (MonitorHost.ping_command self, MonitorHost.ping_regexp self, MonitorHost.time_regexp self)
    = MonitorHost.platform_dispatch sys_platform ping_ttl (str_mul ping_ttl 1000).
Proof.
  unfold MonitorHost.__init__, Monitor.__init__, getitem. cbn [rbind].
  assert (Httl : rcatch match cfg !! "ping_ttl" with
                        | Some v => Ok v
                        | None => Raise (Exc KeyError ("'" +:+ "ping_ttl" +:+ "'"))
                        end (fun _ => Ok "5")
                 = Ok (default "5" (cfg !! "ping_ttl")))
    by (destruct (cfg !! "ping_ttl"); reflexivity).
  rewrite Httl. cbn [rbind]. cbv zeta.
  destruct (MonitorHost.platform_dispatch _ _ _) as [[command reply] time].
  destruct (cfg !! "host") as [h|]; cbn [rcatch rbind]; [|discriminate].
  destruct (String.eqb h "") eqn:Hh; [discriminate|].
  apply String.eqb_neq in Hh.
  intros H. injection H as <-. cbn. auto.
Qed.

Lemma http_init_without_url (name : string) (cfg : config) :
  cfg !! "url" = None ->
  MonitorHTTP.__init__ name cfg = Raise Monitor.missing_fields.
Proof.
  intros H. unfold MonitorHTTP.__init__, Monitor.__init__, getitem.
  rewrite H. reflexivity.
Qed.

Lemma tcp_init_without_field (name : string) (cfg : config) :
  cfg !! "host" = None \/ cfg !! "port" = None \/ cfg !! "port" = Some "" ->
  MonitorTCP.__init__ name cfg = Raise Monitor.missing_fields.
Proof.
  unfold MonitorTCP.__init__, Monitor.__init__, getitem.
  intros [H | [H | H]]; rewrite H; try rewrite int_empty;
    destruct (cfg !! "host"); reflexivity || discriminate.
Qed.

Lemma tcp_init_empty_host (name : string) (cfg : config) (p : string) (n : Z) :
  cfg !! "host" = Some "" -> cfg !! "port" = Some p -> int py_version p = Ok n ->
  MonitorTCP.__init__ name cfg = Raise (Exc RuntimeError "missing hostname").
Proof.
  intros Hh Hp Hn. unfold MonitorTCP.__init__, Monitor.__init__, getitem.
  rewrite Hh, Hp. cbn [rbind rcatch]. rewrite Hn. reflexivity.
Qed.

Lemma host_init_host (name : string) (cfg : config) :
  (cfg !! "host" = None ->
   MonitorHost.__init__ name cfg = Raise Monitor.missing_fields) /\
  (cfg !! "host" = Some "" ->
   MonitorHost.__init__ name cfg = Raise (Exc RuntimeError "missing hostname")).
Proof.
  unfold MonitorHost.__init__, Monitor.__init__, getitem. cbn [rbind].
  destruct (cfg !! "ping_ttl"); cbn [rcatch rbind]; cbv zeta;
    destruct (MonitorHost.platform_dispatch _ _ _) as [[command reply] time];
    split; intros ->; reflexivity.
Qed.

Lemma dns_init_without_record (name : string) (cfg : config) :
  cfg !! "record" = None \/ cfg !! "record" = Some "" ->
  MonitorDNS.__init__ name cfg = Raise Monitor.missing_fields.
Proof.
  unfold MonitorDNS.__init__, Monitor.__init__, getitem.
  intros [-> | ->]; reflexivity.
Qed.

End constructors.

(** C6, as the code has it: whatever the probe type, a configuration that
    lacks a required key is refused with the error [Required configuration
    fields missing]; so are an empty [record] for a DNS probe and an empty
    [port] for a TCP probe; a [host] that is present and empty is refused,
    for a TCP probe (whose port reads as a number) and for a ping probe,
    with the error [missing hostname]. *)
Theorem init_refuses_missing_fields {rt : Runtime} (name : string) (cfg : config) :
  (cfg !! "url" = None ->
   MonitorHTTP.__init__ name cfg = Raise (Exc RuntimeError "Required configuration fields missing")) /\
  (cfg !! "host" = None \/ cfg !! "port" = None \/ cfg !! "port" = Some "" ->
   MonitorTCP.__init__ name cfg = Raise (Exc RuntimeError "Required configuration fields missing")) /\
  (cfg !! "host" = None ->
   MonitorHost.__init__ name cfg = Raise (Exc RuntimeError "Required configuration fields missing")) /\
  (cfg !! "record" = None \/ cfg !! "record" = Some "" ->
   MonitorDNS.__init__ name cfg = Raise (Exc RuntimeError "Required configuration fields missing")) /\
  (forall p n, cfg !! "host" = Some "" -> cfg !! "port" = Some p -> int py_version p = Ok n ->
   MonitorTCP.__init__ name cfg = Raise (Exc RuntimeError "missing hostname")) /\
  (cfg !! "host" = Some "" ->
   MonitorHost.__init__ name cfg = Raise (Exc RuntimeError "missing hostname")).
Proof.
  split; [apply http_init_without_url|].
  split; [apply tcp_init_without_field|].
  split; [apply host_init_host|].
  split; [apply dns_init_without_record|].
  split; [intros p n; apply tcp_init_empty_host|apply host_init_host].
Qed.

(** The theorem above at configurations that lack what the probe needs: no
    key at all for the HTTP, TCP and ping probes, an empty record for the
    DNS probe, an empty host for the TCP probe. *)
Lemma init_refuses_missing_fields_witness :
  let rt := Sample.linux_py3 in
  MonitorHTTP.__init__ "web" ∅ = Raise Monitor.missing_fields /\
  MonitorTCP.__init__ "web" ∅ = Raise Monitor.missing_fields /\
  MonitorHost.__init__ "ping" ∅ = Raise Monitor.missing_fields /\
  MonitorDNS.__init__ "dns" {[ "record" := "" ]} = Raise Monitor.missing_fields /\
  MonitorTCP.__init__ "web" SampleTCP.config_empty_host
    = Raise (Exc RuntimeError "missing hostname").
Proof.
  cbv zeta.
  pose proof (init_refuses_missing_fields (rt := Sample.linux_py3) "web" ∅)
    as (Hhttp & Htcp & _).
  pose proof (init_refuses_missing_fields (rt := Sample.linux_py3) "ping" ∅)
    as (_ & _ & Hhost & _).
  pose proof (init_refuses_missing_fields (rt := Sample.linux_py3) "dns" {[ "record" := "" ]})
    as (_ & _ & _ & Hdns & _).
  pose proof (init_refuses_missing_fields (rt := Sample.linux_py3) "web"
                SampleTCP.config_empty_host)
    as (_ & _ & _ & _ & Hempty & _).
  split; [exact (Hhttp eq_refl)|].
  split; [exact (Htcp (or_introl eq_refl))|].
  split; [exact (Hhost eq_refl)|].
  split; [exact (Hdns (or_intror eq_refl))|].
  exact (Hempty "80" 80 eq_refl eq_refl eq_refl).
Defined.

(** C6 as stated fails twice: an HTTP probe whose [url] is present and
    empty is constructed, and the TCP probe whose [host] is present and
    empty is refused with another message than [Required configuration
    fields missing]. *)
Lemma init_accepts_empty_url_and_names_empty_host :
  SampleHTTP.config_empty_url !! "url" = Some "" /\
  MonitorHTTP.__init__ (rt := Sample.linux_py3) "web" SampleHTTP.config_empty_url
    = Ok SampleHTTP.probe_empty_url /\
  SampleTCP.config_empty_host !! "host" = Some "" /\
  MonitorTCP.__init__ (rt := Sample.linux_py3) "web" SampleTCP.config_empty_host
    = Raise (Exc RuntimeError "missing hostname") /\
  String.eqb "missing hostname" "Required configuration fields missing" = false.
Proof.
  split; [|split; [|split; [|split]]]; vm_compute; reflexivity.
Qed.

(** C7, where the code departs from it: on a platform that is none of the
    recognised ones the constructor of the ping probe completes (the
    [RuntimeError] of its last branch is built and never raised) and returns
    an instance whose command and patterns are the empty class defaults;
    every run of that instance fails on formatting the empty command. *)
Theorem host_init_completes_on_unknown_platform :
  sys_platform (Runtime := Sample.solaris_py3) = "sunos5" /\
  MonitorHost.__init__ (rt := Sample.solaris_py3) "ping" SampleHost.host_config
    = Ok SampleHost.blank_ping /\
  MonitorHost.run_test (rt := Sample.solaris_py3) SampleHost.ping_answers SampleHost.blank_ping
    = ([ record_fail
           (Some (Exception
                    (Exc TypeError "not all arguments converted during string formatting"))) ],
       Ok false).
Proof. split; [|split]; vm_compute; reflexivity. Qed.

(** X5: on any platform that is neither [win32] nor [cygwin] and whose
    name starts with none of [freebsd], [darwin] and [linux], a configured
    host is all the constructor of the ping probe asks for: it returns an
    instance with an empty command and empty patterns. *)
Lemma host_init_unknown_platform {rt : Runtime} (name : string) (cfg : config) (h : string) :
  sys_platform <> "win32" -> sys_platform <> "cygwin" ->
  startswith "freebsd" sys_platform = false ->
  startswith "darwin" sys_platform = false ->
  startswith "linux" sys_platform = false ->
  cfg !! "host" = Some h -> h <> "" ->
  MonitorHost.__init__ name cfg =
    Ok {| MonitorHost.host := h;
          MonitorHost.ping_command := "";
          MonitorHost.ping_regexp := "";
          MonitorHost.time_regexp := "" |}.
Proof.
  intros Hw Hc Hf Hd Hl Hh Hne.
  assert (Hplat : forall ttl ms,
            MonitorHost.platform_dispatch sys_platform ttl ms = ("", "", "")).
  { intros ttl ms. unfold MonitorHost.platform_dispatch.
    apply String.eqb_neq in Hw, Hc. rewrite Hw, Hc, Hf, Hd, Hl. reflexivity. }
  unfold MonitorHost.__init__, Monitor.__init__, getitem. cbn [rbind].
  rewrite Hh. apply String.eqb_neq in Hne.
  destruct (cfg !! "ping_ttl") as [ttl|]; cbn [rcatch rbind]; cbv zeta;
    rewrite Hplat, Hne; reflexivity.
Qed.

(** C8, as the code has it: the parameters of a constructed probe are
    [(host, port)] for a TCP probe, the port read as a number;
    [(url, regexp, allowed_codes)] for an HTTP probe, an absent pattern
    being the empty string and absent codes the list of 200;
    the host alone for a ping probe, and the record alone for a DNS probe. *)
Theorem get_params_of_constructed {rt : Runtime} (name : string) (cfg : config) :
  (forall self, MonitorTCP.__init__ name cfg = Ok self ->
   exists h p n,
     cfg !! "host" = Some h /\ cfg !! "port" = Some p /\ int py_version p = Ok n /\
     MonitorTCP.get_params self = (h, n)) /\
  (forall self, MonitorHTTP.__init__ name cfg = Ok self ->
   exists u codes,
     cfg !! "url" = Some u /\
     match cfg !! "allowed_codes" with
     | Some s =>
         map_result (fun x => int py_version (strip isspace_config x)) (split "," s) = Ok codes
     | None => codes = [ 200 ]
     end /\
     MonitorHTTP.get_params self = (u, default "" (cfg !! "regexp"), codes)) /\
  (forall self, MonitorHost.__init__ name cfg = Ok self ->
   cfg !! "host" = Some (MonitorHost.get_params self)) /\
  (forall self, MonitorDNS.__init__ name cfg = Ok self ->
   cfg !! "record" = Some (MonitorDNS.get_params self)).
Proof.
  split; [|split; [|split]].
  - intros self Hinit.
    destruct (tcp_init_inv name cfg self Hinit) as (p & Hh & Hp & Hn & _).
    exists (MonitorTCP.host self), p, (MonitorTCP.port self). auto.
  - intros self Hinit.
    destruct (http_init_inv name cfg self Hinit) as (Hu & Htext & _ & Hcodes).
    exists (MonitorHTTP.url self), (MonitorHTTP.allowed_codes self).
    unfold MonitorHTTP.get_params. rewrite Htext. auto.
  - intros self Hinit. apply (host_init_inv name cfg self Hinit).
  - intros self Hinit. apply (dns_init_inv name cfg self Hinit).
Qed.

(** The theorem above at the sample TCP probe: its parameters are the
    configured host and port. *)
Lemma get_params_of_constructed_witness :
  MonitorTCP.get_params SampleTCP.probe = ("example.org", 80) /\
  MonitorDNS.get_params SampleDNS.probe_a = "example.org".
Proof.
  pose proof (get_params_of_constructed (rt := Sample.linux_py3) "web" SampleTCP.tcp_config)
    as (Htcp & _).
  pose proof (get_params_of_constructed (rt := Sample.linux_py3) "dns" SampleDNS.config_a)
    as (_ & _ & _ & Hdns).
  split.
  - destruct (Htcp SampleTCP.probe eq_refl) as (h & p & n & Hh & Hp & Hn & ->).
    vm_compute in Hh, Hp. injection Hh as <-. injection Hp as <-.
    vm_compute in Hn. injection Hn as <-. reflexivity.
  - specialize (Hdns SampleDNS.probe_a eq_refl).
    change (Some "example.org" = Some (MonitorDNS.get_params SampleDNS.probe_a)) in Hdns.
    congruence.
Defined.

(** C8 as stated fails on its last clause: two DNS probes that ask
    different servers for different record types have the same parameters,
    the record alone. *)
Lemma dns_params_omit_server_and_type :
  MonitorDNS.__init__ "dns" SampleDNS.config_a = Ok SampleDNS.probe_a /\
  MonitorDNS.__init__ "dns" SampleDNS.config_mx = Ok SampleDNS.probe_mx /\
  (MonitorDNS.server SampleDNS.probe_a, MonitorDNS.rectype SampleDNS.probe_a)
    = (Some "192.0.2.53", Some "A") /\
  (MonitorDNS.server SampleDNS.probe_mx, MonitorDNS.rectype SampleDNS.probe_mx)
    = (Some "198.51.100.53", Some "MX") /\
  MonitorDNS.get_params SampleDNS.probe_a = "example.org" /\
  MonitorDNS.get_params SampleDNS.probe_mx = "example.org".
Proof.
  split; [|split; [|split; [|split; [|split]]]]; vm_compute; reflexivity.
Qed.

(* ===================================================================== *)
(** * The wait argument of ping on Windows                                *)
(* ===================================================================== *)

Lemma length_append (a b : string) :
  String.length (a +:+ b) = (String.length a + String.length b)%nat.
Proof. induction a as [|c a IH]; simpl; [reflexivity|]. rewrite IH. reflexivity. Qed.

(** Repeating a string multiplies its length. *)
Lemma str_mul_length (s : string) (n : nat) :
  String.length (str_mul s n) = (n * String.length s)%nat.
Proof.
  induction n as [|n IH]; [reflexivity|].
  cbn [str_mul]. rewrite length_append, IH. reflexivity.
Qed.

(** Repeating one character gives a run of that character. *)
Lemma str_mul_char (c : ascii) (n : nat) :
  str_mul (String c "") n = string_of_list_ascii (List.repeat c n).
Proof. induction n as [|n IH]; [reflexivity|]. cbn. rewrite <- IH. reflexivity. Qed.

(** C10: on Windows and Cygwin the ping command of a constructed probe
    passes to [-w] the configured [ping_ttl] string written 1000 times over;
    with the default this is a run of one thousand characters [5], not the
    number of milliseconds. *)
Theorem host_windows_wait_repeats_ttl {rt : Runtime}
    (name : string) (cfg : config) (self : MonitorHost.t) :
  sys_platform = "win32" \/ sys_platform = "cygwin" ->
  MonitorHost.__init__ name cfg = Ok self ->
  let ping_ttl := default "5" (cfg !! "ping_ttl") in
  MonitorHost.ping_command self = "ping -n 1 -w " +:+ str_mul ping_ttl 1000 +:+ " %s" /\
  String.length (str_mul ping_ttl 1000) = (1000 * String.length ping_ttl)%nat /\
  (cfg !! "ping_ttl" = None ->
   MonitorHost.ping_command self =
     "ping -n 1 -w " +:+ string_of_list_ascii (List.repeat "5"%char 1000) +:+ " %s").
Proof.
  intros Hplat Hinit ping_ttl.
  destruct (host_init_inv name cfg self Hinit) as (_ & _ & Hd).
  fold ping_ttl in Hd.
  assert (Hcmd : MonitorHost.ping_command self
                 = "ping -n 1 -w " +:+ str_mul ping_ttl 1000 +:+ " %s").
  { unfold MonitorHost.platform_dispatch in Hd.
    destruct Hplat as [Hp | Hp]; rewrite Hp in Hd.
    - change (String.eqb "win32" "win32") with true in Hd. cbn [orb] in Hd.
      congruence.
    - change (String.eqb "cygwin" "win32") with false in Hd.
      change (String.eqb "cygwin" "cygwin") with true in Hd. cbn [orb] in Hd.
      congruence. }
  split; [exact Hcmd|].
  split; [apply str_mul_length|].
  intros Hnone. rewrite Hcmd. subst ping_ttl. rewrite Hnone.
  change (default "5" None) with "5". rewrite (str_mul_char "5" 1000). reflexivity.
Qed.

(** The theorem above for the sample configuration on Windows: the argument
    that follows [-w] is 1000 characters long, and is not [5000]. *)
Lemma host_windows_wait_repeats_ttl_witness :
  MonitorHost.__init__ (rt := Sample.windows_py3) "ping" SampleHost.host_config
    = Ok SampleHost.windows_ping /\
  MonitorHost.ping_command SampleHost.windows_ping
    = "ping -n 1 -w " +:+ str_mul "5" 1000 +:+ " %s" /\
  String.length (str_mul "5" 1000) = 1000%nat /\
  String.eqb (str_mul "5" 1000) "5000" = false.
Proof.
  split; [vm_compute; reflexivity|].
  pose proof (host_windows_wait_repeats_ttl (rt := Sample.windows_py3)
                "ping" SampleHost.host_config SampleHost.windows_ping
                (or_introl eq_refl)) as H.
  assert (Hinit : MonitorHost.__init__ (rt := Sample.windows_py3) "ping" SampleHost.host_config
                  = Ok SampleHost.windows_ping) by (vm_compute; reflexivity).
  destruct (H Hinit) as (Hcmd & Hlen & _).
  split; [exact Hcmd|].
  split; [exact Hlen|].
  vm_compute; reflexivity.
Defined.

(* ===================================================================== *)
(** * Runs that end in a recorded failure                                 *)
(* ===================================================================== *)

(** The ping probe on Linux, its command ending with a non-zero status. *)
Lemma host_run_records_once_witness :
  exists (c : call) (b : bool),
    MonitorHost.run_test (rt := Sample.linux_py3) SampleHost.ping_fails SampleHost.linux_ping
    = ([ c ], Ok b).
Proof.
  exact (host_run_records_once (rt := Sample.linux_py3)
           SampleHost.linux_ping SampleHost.ping_fails eq_refl eq_refl).
Defined.

(** The TCP probe against a port that refuses the connection. *)
Lemma tcp_run_records_once_witness :
  exists (c : call) (b : bool),
    MonitorTCP.run_test SampleTCP.refusing SampleTCP.probe = ([ c ], Ok b).
Proof.
  exact (tcp_run_records_once SampleTCP.refusing SampleTCP.probe eq_refl eq_refl).
Defined.

(** The constructor of the ping probe on Solaris. *)
Lemma host_init_unknown_platform_witness :
  MonitorHost.__init__ (rt := Sample.solaris_py3) "ping" SampleHost.host_config
  = Ok SampleHost.blank_ping.
Proof.
  refine (host_init_unknown_platform (rt := Sample.solaris_py3)
            "ping" SampleHost.host_config "example.org"
            _ _ eq_refl eq_refl eq_refl eq_refl _);
    discriminate.
Defined.

Example http_unreachable :
  MonitorHTTP.run_test (rt := Sample.linux_py3) SampleHTTP.unreachable SampleHTTP.probe
  = ([ record_fail
         (Some (Text ("Requests exception while opening URL: "
                      +:+ "HTTPConnectionPool(host='example.org', port=80): Max retries exceeded"))) ],
     Ok false).
Proof. vm_compute; reflexivity. Qed.

Example tcp_refused :
  MonitorTCP.run_test SampleTCP.refusing SampleTCP.probe = ([ record_fail None ], Ok false).
Proof. reflexivity. Qed.

Example tcp_listening :
  MonitorTCP.run_test SampleTCP.listening SampleTCP.probe = ([ record_success None ], Ok true).
Proof. reflexivity. Qed.

Example dns_without_dig :
  MonitorDNS.run_test (rt := Sample.linux_py3) SampleDNS.no_dig SampleDNS.probe_a
  = ([ record_fail
         (Some (Text "Exception while executing dig: [Errno 2] No such file or directory")) ],
     Ok false).
Proof. vm_compute; reflexivity. Qed.

Example ping_command_failed :
  calls (MonitorHost.run_test (rt := Sample.bsd_py2) SampleHost.ping_fails SampleHost.bsd_ping)
  = [ record_fail
        (Some (Exception
                 (Exc CalledProcessError
                    "Command '['ping', '-c1', '-W5', 'example.org']' returned non-zero exit status 2"))) ].
Proof. vm_compute; reflexivity. Qed.

(* ===================================================================== *)
(** * The ping probe on Python 3                                          *)
(* ===================================================================== *)

(** X6: on Python 3 a run of the ping probe that is recorded as a success
    carries no message: the loop sees the output as one line, on which a
    reply and a captured time exclude each other. *)
Theorem host_run_py3_reports_no_time {rt : Runtime}
    (self : MonitorHost.t) (w : MonitorHost.world)
    (msg : option message) (b : result bool) :
  py_version = Py3 ->
  MonitorHost.run_test w self = ([ record_success msg ], b) ->
  msg = None.
Proof.
  intros Hv. unfold MonitorHost.run_test, re_compile.
  destruct (re_compiles (MonitorHost.ping_regexp self)); [|discriminate].
  destruct (re_compiles (MonitorHost.time_regexp self)); [|discriminate].
  cbn [lift Recorder.bind].
  destruct (str_mod _ _) as [line|e]; cbn [rbind]; [|run_action; discriminate].
  destruct (MonitorHost.check_output w _) as [output|e]; cbn [rbind];
    [|run_action; discriminate].
  rewrite (lines_of_py3 output Hv).
  destruct (MonitorHost.scan _ _ _ _ _) as [[success pingtime]|e] eqn:Hscan;
    [|run_action; discriminate].
  destruct success; [|run_action; discriminate].
  apply scan_one_line in Hscan as ->.
  run_action. intros H. injection H as <- _. reflexivity.
Qed.

(** The sample output holds a reply and an average; on Python 3 the success
    is recorded without the average. *)
Lemma host_run_py3_reports_no_time_witness :
  MonitorHost.run_test (rt := Sample.linux_py3) SampleHost.ping_answers SampleHost.linux_ping
    = ([ record_success None ], Ok true) /\
  @None message = None.
Proof.
  split; [vm_compute; reflexivity|].
  exact (host_run_py3_reports_no_time (rt := Sample.linux_py3)
           SampleHost.linux_ping SampleHost.ping_answers None (Ok true) eq_refl eq_refl).
Defined.

(* ===================================================================== *)
(** * Checks of the runtime model                                         *)
(* ===================================================================== *)

Example int_blanks_and_sign : int Py3 " -42 " = Ok (-42).
Proof. reflexivity. Qed.

Example int_underscore_py3 : int Py3 "1_000" = Ok 1000.
Proof. reflexivity. Qed.

Example int_underscore_py2 : int Py2 "1_000" = Raise (invalid_literal "1_000").
Proof. reflexivity. Qed.

Example int_not_a_number : int Py3 "http" = Raise (invalid_literal "http").
Proof. reflexivity. Qed.

Example split_keeps_empty_fields : split "," "200,,301" = [ "200" ; "" ; "301" ].
Proof. reflexivity. Qed.

Example split_empty_string : split "," "" = [ "" ].
Proof. reflexivity. Qed.

Example strip_both_ends :
  strip isspace_text (" 192.0.2.1 " +:+ String LF "") = "192.0.2.1".
Proof. reflexivity. Qed.

Example str_int_list_codes : str_int_list [ 200 ; 301 ; -1 ] = "[200, 301, -1]".
Proof. reflexivity. Qed.

Example repr_bytes_escapes :
  repr_bytes ("a" +:+ String LF (String (chr 9) (String (chr 200) "")))
  = "b'a" +:+ String backslash "n" +:+ String backslash "t" +:+ String backslash "xc8'".
Proof. reflexivity. Qed.

Example repr_bytes_quote :
  repr_bytes "it's" = String "b" (String quote2 ("it's" +:+ String quote2 "")).
Proof. reflexivity. Qed.

Example lines_python2 :
  MonitorHost.lines_of (rt := Sample.bsd_py2) ("a" +:+ String LF "b") = [ "a" ; "b" ].
Proof. reflexivity. Qed.

Example lines_python3 :
  MonitorHost.lines_of (rt := Sample.linux_py3) ("a" +:+ String LF "b")
  = [ "b'a" +:+ String backslash "nb'" ].
Proof. reflexivity. Qed.

Example http_init_bad_code :
  MonitorHTTP.__init__ (rt := Sample.linux_py3) "web"
    {[ "url" := "http://example.org/" ; "allowed_codes" := "200;301" ]}
  = Raise (invalid_literal "200;301").
Proof. vm_compute; reflexivity. Qed.

Example tcp_init_negative_port :
  MonitorTCP.__init__ (rt := Sample.linux_py3) "web"
    {[ "host" := "example.org" ; "port" := "-1" ]}
  = Raise (Exc RuntimeError "missing or invalid port number").
Proof. vm_compute; reflexivity. Qed.

Example dns_init_params :
  MonitorDNS.__init__ "dns" SampleDNS.config_mx = Ok SampleDNS.probe_mx.
Proof. vm_compute; reflexivity. Qed.

Example host_init_linux :
  MonitorHost.__init__ (rt := Sample.linux_py3) "ping" SampleHost.host_config
  = Ok SampleHost.linux_ping.
Proof. vm_compute; reflexivity. Qed.

(* ===================================================================== *)
(** * MonitorHTTP: the request, the failures, the description           *)
(* ===================================================================== *)

Section http_options.
Context {rt : Runtime}.

(** What a constructed HTTP probe holds of the optional keys. *)
Lemma http_init_options (name : string) (cfg : config) (self : MonitorHTTP.t) :
  MonitorHTTP.__init__ name cfg = Ok self ->
  MonitorHTTP.certfile self = cfg !! "certfile" /\
  MonitorHTTP.keyfile self =
    match cfg !! "certfile" with
    | Some c => Some (default c (cfg !! "keyfile"))
    | None => None
    end /\
  MonitorHTTP.verify_hostname self =
    match cfg !! "verify_hostname" with
    | Some v => negb (String.eqb (lower v) "false")
    | None => true
    end /\
  match cfg !! "timeout" with
  | Some v => int py_version v = Ok (MonitorHTTP.request_timeout self)
  | None => MonitorHTTP.request_timeout self = 5
  end /\
  MonitorHTTP.username self = cfg !! "username" /\
  MonitorHTTP.password self = cfg !! "password".
Proof.
  unfold MonitorHTTP.__init__, Monitor.__init__.
  cbn [rbind]. cbv zeta. intros H.
  step_result H. step_result H. step_result H. step_result H.
  injection H as <-. cbn.
  split; [|split; [|split; [|split; [|split; reflexivity]]]].
  - destruct (cfg !! "certfile"); [destruct (cfg !! "keyfile")|]; reflexivity.
  - destruct (cfg !! "certfile"); [destruct (cfg !! "keyfile")|]; reflexivity.
  - destruct (cfg !! "verify_hostname") as [v|]; [|reflexivity].
    destruct (String.eqb (lower v) "false"); reflexivity.
  - destruct (cfg !! "timeout"); [exact E2|congruence].
Qed.

(** [int] raises nothing but [ValueError]. *)
Lemma int_raises_ValueError (v : version) (s : string) (e : exc) :
  int v s = Raise e -> exc_type e = ValueError.
Proof.
  unfold int. destruct (match strip _ s with EmptyString => _ | String _ _ => _ end);
    [discriminate|]. intros H. injection H as <-. reflexivity.
Qed.

Lemma map_int_raises_ValueError (f : string -> string) (v : version) (l : list string) (e : exc) :
  map_result (fun x => int v (f x)) l = Raise e -> exc_type e = ValueError.
Proof.
  induction l as [|x l IH]; cbn [map_result rbind]; [discriminate|].
  destruct (int v (f x)) eqn:Hx; cbn [rbind].
  - destruct (map_result _ l); cbn [rbind]; [discriminate|].
    intros H. injection H as <-. apply IH. reflexivity.
  - intros H. injection H as <-. exact (int_raises_ValueError _ _ _ Hx).
Qed.

End http_options.

(** X7: the credentials of the request a constructed HTTP probe sends: a
    configured [certfile] wins over a configured [username], its key being
    [keyfile] or, without one, the certificate file itself; without
    [certfile] a configured [username] gives basic authentication with the
    configured password, and a [keyfile] alone gives nothing. *)
Theorem http_request_credentials {rt : Runtime}
    (name : string) (cfg : config) (self : MonitorHTTP.t) :
  MonitorHTTP.__init__ name cfg = Ok self ->
  MonitorHTTP.req_auth (MonitorHTTP.request_of self) =
    match cfg !! "certfile", cfg !! "username" with
    | Some c, _ => MonitorHTTP.ClientCert (Some c) (Some (default c (cfg !! "keyfile")))
    | None, Some u => MonitorHTTP.HTTPBasicAuth (Some u) (cfg !! "password")
    | None, None => MonitorHTTP.Anonymous
    end.
Proof.
  intros Hinit.
  destruct (http_init_options name cfg self Hinit) as (Hc & Hk & _ & _ & Hu & Hp).
  unfold MonitorHTTP.request_of. cbn [MonitorHTTP.req_auth].
  rewrite Hk, Hp, Hc, Hu.
  destruct (cfg !! "certfile"); [reflexivity|].
  destruct (cfg !! "username"); reflexivity.
Qed.

(** With a certificate and a user name configured, the certificate is
    sent, as its own key. *)
Lemma http_request_credentials_witness :
  MonitorHTTP.req_auth (MonitorHTTP.request_of SampleMore.probe_cert)
  = MonitorHTTP.ClientCert (Some "/etc/ssl/client.pem") (Some "/etc/ssl/client.pem").
Proof.
  exact (http_request_credentials (rt := Sample.linux_py3) "web"
           SampleMore.config_cert SampleMore.probe_cert eq_refl).
Defined.

(** X8: the request of a constructed HTTP probe verifies the host name of
    the server unless [verify_hostname] is configured and reads [false]
    once put in lower case; no other value turns the verification off. *)
Theorem http_request_verifies_unless_false {rt : Runtime}
    (name : string) (cfg : config) (self : MonitorHTTP.t) :
  MonitorHTTP.__init__ name cfg = Ok self ->
  (MonitorHTTP.req_verify (MonitorHTTP.request_of self) = false <->
   exists v, cfg !! "verify_hostname" = Some v /\ lower v = "false").
Proof.
  intros Hinit.
  destruct (http_init_options name cfg self Hinit) as (_ & _ & Hv & _).
  unfold MonitorHTTP.request_of. cbn [MonitorHTTP.req_verify]. rewrite Hv.
  destruct (cfg !! "verify_hostname") as [v|].
  - destruct (String.eqb (lower v) "false") eqn:Hlow; cbn [negb].
    + apply String.eqb_eq in Hlow. split; [eauto|reflexivity].
    + apply String.eqb_neq in Hlow. split; [discriminate|].
      intros (v' & Hv' & Hf). injection Hv' as <-. contradiction.
  - split; [discriminate|]. intros (v' & Hv' & _). discriminate.
Qed.

(** [False], with a capital, turns the verification off. *)
Lemma http_request_verifies_unless_false_witness :
  MonitorHTTP.req_verify (MonitorHTTP.request_of SampleMore.probe_cert) = false.
Proof.
  apply (proj2 (http_request_verifies_unless_false (rt := Sample.linux_py3) "web"
                  SampleMore.config_cert SampleMore.probe_cert eq_refl)).
  exists "False". split; reflexivity.
Defined.

(** X9: when [requests.get] raises, the run of an HTTP probe is recorded as
    a failure whose message tells a fault of the [requests] library from
    any other exception and ends with the text of the exception. *)
Theorem http_run_classifies_exception {rt : Runtime}
    (self : MonitorHTTP.t) (w : MonitorHTTP.world) (e : exc) :
  MonitorHTTP.requests_get w (MonitorHTTP.request_of self) = Raise e ->
  failed (MonitorHTTP.run_test w self)
    (Some (Text ((if is_RequestException e
                  then "Requests exception while opening URL: "
                  else "Exception while trying to open url: ") +:+ exc_str e))).
Proof.
  intros Hget. unfold failed, MonitorHTTP.run_test. rewrite Hget. run_action.
  destruct (is_RequestException e); reflexivity.
Qed.

Lemma http_run_classifies_exception_witness :
  failed (MonitorHTTP.run_test (rt := Sample.linux_py3) SampleHTTP.unreachable SampleHTTP.probe)
    (Some (Text ("Requests exception while opening URL: "
                 +:+ "HTTPConnectionPool(host='example.org', port=80): Max retries exceeded"))).
Proof.
  exact (http_run_classifies_exception (rt := Sample.linux_py3)
           SampleHTTP.probe SampleHTTP.unreachable _ eq_refl).
Defined.

(** X10: the constructor of the HTTP probe raises the configuration error
    [Required configuration fields missing] exactly when [url] is absent;
    with [url] present it raises only what [int] raises on [allowed_codes]
    and [timeout], a [ValueError], or what [re.compile] raises on [regexp]. *)
Theorem http_init_failures {rt : Runtime} (name : string) (cfg : config) (e : exc) :
  MonitorHTTP.__init__ name cfg = Raise e ->
  (cfg !! "url" = None /\ e = Monitor.missing_fields) \/
  (exists u, cfg !! "url" = Some u /\ (exc_type e = ValueError \/ exc_type e = ReError)).
Proof.
  unfold MonitorHTTP.__init__, Monitor.__init__, getitem.
  cbn [rbind]. cbv zeta.
  destruct (cfg !! "url") as [u|]; cbn [rcatch rbind].
  - intros H. right. exists u. split; [reflexivity|].
    destruct (match cfg !! "allowed_codes" with Some _ => _ | None => _ end)
      as [codes|e1] eqn:Hcodes; cbn [rbind] in H.
    + destruct (negb _) in H.
      * unfold re_compile in H. destruct (re_compiles _); cbn [rbind] in H.
        -- destruct (cfg !! "timeout") as [t|]; [|discriminate H].
           destruct (int py_version t) eqn:Ht; cbn [rbind] in H; [discriminate H|].
           injection H as <-. left. exact (int_raises_ValueError _ _ _ Ht).
        -- injection H as <-. right. reflexivity.
      * cbn [rbind] in H.
        destruct (cfg !! "timeout") as [t|]; [|discriminate H].
        destruct (int py_version t) eqn:Ht; cbn [rbind] in H; [discriminate H|].
        injection H as <-. left. exact (int_raises_ValueError _ _ _ Ht).
    + injection H as <-. left.
      destruct (cfg !! "allowed_codes"); [|discriminate Hcodes].
      exact (map_int_raises_ValueError _ _ _ _ Hcodes).
  - intros H. injection H as <-. left. split; reflexivity.
Qed.

(** A code that is not a number: the [ValueError] of [int] leaves the
    constructor. *)
Lemma http_init_failures_witness :
  exists u, SampleMore.config_bad_codes !! "url" = Some u /\
    (exc_type (invalid_literal "ok") = ValueError \/ exc_type (invalid_literal "ok") = ReError).
Proof.
  destruct (http_init_failures (rt := Sample.linux_py3) "web" SampleMore.config_bad_codes
              (invalid_literal "ok") eq_refl) as [[H _] | H].
  - discriminate H.
  - exact H.
Defined.

(** X11: the elapsed time in the message of a success leaves out whole
    days: the run reads [seconds] and [microseconds] of the difference of
    the two clock readings, so moving the second reading by any number of
    days changes nothing of what the run records and returns. *)
Theorem http_run_ignores_whole_days {rt : Runtime}
    (self : MonitorHTTP.t) (w : MonitorHTTP.world) (days : Z) :
  MonitorHTTP.run_test (SampleMore.days_later days w) self = MonitorHTTP.run_test w self.
Proof.
  assert (Hmsg : forall r,
    MonitorHTTP.success_message r
      (MonitorHTTP.now_after w + days * MonitorHTTP.day_us - MonitorHTTP.now_before w)
    = MonitorHTTP.success_message r (MonitorHTTP.now_after w - MonitorHTTP.now_before w)).
  { intros r. unfold MonitorHTTP.success_message, MonitorHTTP.timedelta_seconds,
      MonitorHTTP.timedelta_microseconds.
    replace (MonitorHTTP.now_after w + days * MonitorHTTP.day_us - MonitorHTTP.now_before w)
      with (MonitorHTTP.now_after w - MonitorHTTP.now_before w + days * MonitorHTTP.day_us)
      by lia.
    rewrite Z_mod_plus_full. reflexivity. }
  unfold MonitorHTTP.run_test, SampleMore.days_later.
  cbn [MonitorHTTP.now_before MonitorHTTP.now_after MonitorHTTP.requests_get]. cbv zeta.
  destruct (MonitorHTTP.requests_get w _) as [r|e]; [|reflexivity].
  cbn [lift Recorder.bind try_except]. rewrite Hmsg. reflexivity.
Qed.

(** X12: the description of a constructed HTTP probe is decided by [url]
    and [regexp] alone: it announces [HTTP/200 OK] whatever codes, timeout
    and credentials are configured. *)
Theorem http_describe_reads_url_and_regexp {rt : Runtime}
    (name1 name2 : string) (cfg1 cfg2 : config) (self1 self2 : MonitorHTTP.t) :
  MonitorHTTP.__init__ name1 cfg1 = Ok self1 ->
  MonitorHTTP.__init__ name2 cfg2 = Ok self2 ->
  cfg1 !! "url" = cfg2 !! "url" ->
  cfg1 !! "regexp" = cfg2 !! "regexp" ->
  MonitorHTTP.describe self1 = MonitorHTTP.describe self2.
Proof.
  intros H1 H2 Hurl Hre.
  destruct (http_init_inv name1 cfg1 self1 H1) as (Hu1 & Ht1 & Hr1 & _).
  destruct (http_init_inv name2 cfg2 self2 H2) as (Hu2 & Ht2 & Hr2 & _).
  unfold MonitorHTTP.describe. rewrite Hr1, Hr2, Ht1, Ht2, Hre.
  assert (Hsame : MonitorHTTP.url self1 = MonitorHTTP.url self2) by congruence.
  rewrite Hsame. reflexivity.
Qed.

(** The probe that accepts 404 alone describes itself as the probe that
    accepts 200. *)
Lemma http_describe_reads_url_and_regexp_witness :
  MonitorHTTP.describe SampleMore.probe_404 = MonitorHTTP.describe SampleHTTP.probe /\
  MonitorHTTP.describe SampleHTTP.probe
  = "Checking that accessing http://example.org/ returns HTTP/200 OK".
Proof.
  split; [|reflexivity].
  exact (http_describe_reads_url_and_regexp (rt := Sample.linux_py3) "a" "b"
           SampleMore.config_404 SampleHTTP.config_plain
           SampleMore.probe_404 SampleHTTP.probe eq_refl eq_refl eq_refl eq_refl).
Defined.

(* ===================================================================== *)
(** * Printing an integer and reading it back                             *)
(* ===================================================================== *)

Section int_of_str.

Lemma value_pos (d : Decimal.uint) (p : positive) :
  Numeral.value (Z.pos p) d = Z.pos (Pos.of_uint_acc d p).
Proof.
  revert p. induction d; intros p; cbn [Numeral.value Pos.of_uint_acc];
    [reflexivity|..];
    match goal with
    | |- Numeral.value ?a _ = Z.pos (Pos.of_uint_acc _ ?q) =>
        replace a with (Z.pos q) by lia; apply IHd
    end.
Qed.

Lemma value_of_uint (d : Decimal.uint) : Numeral.value 0 d = Z.of_N (Pos.of_uint d).
Proof.
  induction d; cbn [Numeral.value Pos.of_uint]; [reflexivity|exact IHd|..];
    match goal with
    | |- Numeral.value ?a _ = _ =>
        change a with (Z.pos (Z.to_pos a)); rewrite value_pos; reflexivity
    end.
Qed.

(** [Py.digits] reads a printed numeral digit by digit. *)
Lemma digits_of_uint (sep : bool) (d : Decimal.uint) (acc : Z) :
  digits sep acc (NilEmpty.string_of_uint d) = Some (Numeral.value acc d).
Proof.
  revert acc. induction d; intros acc; cbn [NilEmpty.string_of_uint Numeral.value];
    [reflexivity|..]; cbn [digits]; apply IHd.
Qed.

Lemma unsigned_of_uint (sep : bool) (d : Decimal.uint) :
  d <> Decimal.Nil ->
  unsigned sep (NilEmpty.string_of_uint d) = Some (Z.of_N (Pos.of_uint d)).
Proof.
  intros Hd. rewrite <- value_of_uint.
  destruct d; [contradiction|..];
    cbn [NilEmpty.string_of_uint unsigned Numeral.value]; apply digits_of_uint.
Qed.

(** A string without blanks strips to itself. *)
Lemma rstrip_solid (blank : ascii -> bool) (s : string) :
  Numeral.solid blank s = true -> rstrip blank s = s.
Proof.
  induction s as [|c s IH]; cbn [Numeral.solid rstrip]; [reflexivity|].
  intros H. apply andb_true_iff in H as [Hc Hs]. rewrite (IH Hs).
  apply negb_true_iff in Hc. rewrite Hc. destruct s; reflexivity.
Qed.

Lemma strip_solid (blank : ascii -> bool) (s : string) :
  Numeral.solid blank s = true -> strip blank s = s.
Proof.
  intros H. unfold strip.
  assert (Hl : lstrip blank s = s).
  { destruct s as [|c s]; [reflexivity|]. cbn [Numeral.solid] in H.
    apply andb_true_iff in H as [Hc _]. apply negb_true_iff in Hc.
    cbn [lstrip]. rewrite Hc. reflexivity. }
  rewrite Hl. apply rstrip_solid, H.
Qed.

Lemma solid_of_uint (v : version) (d : Decimal.uint) :
  Numeral.solid (match v with Py2 => isspace_bytes | Py3 => isspace_text end)
    (NilEmpty.string_of_uint d) = true.
Proof.
  induction d; cbn [NilEmpty.string_of_uint Numeral.solid]; [reflexivity|..];
    rewrite IHd; destruct v; reflexivity.
Qed.

(** [int(str(n))] is [n], on either interpreter. *)
Lemma int_str_int (v : version) (n : Z) : int v (str_int n) = Ok n.
Proof.
  unfold str_int, int.
  destruct n as [|p|p]; [destruct v; reflexivity|..];
    cbn [Z.to_int NilZero.string_of_int].
  - assert (Hs : NilZero.string_of_uint (Pos.to_uint p)
                 = NilEmpty.string_of_uint (Pos.to_uint p)).
    { pose proof (DecimalPos.Unsigned.to_uint_nonnil p).
      destruct (Pos.to_uint p); [contradiction|reflexivity..]. }
    rewrite Hs, (strip_solid _ _ (solid_of_uint v _)).
    pose proof (unsigned_of_uint (match v with Py2 => false | Py3 => true end)
                  (Pos.to_uint p) (DecimalPos.Unsigned.to_uint_nonnil p)) as Hu.
    rewrite DecimalPos.Unsigned.of_to in Hu.
    destruct (Pos.to_uint p) eqn:Hd;
      [discriminate Hs || (cbn in Hu; discriminate Hu)|..];
      cbn [NilEmpty.string_of_uint] in *; rewrite Hu; reflexivity.
  - assert (Hs : NilZero.string_of_uint (Pos.to_uint p)
                 = NilEmpty.string_of_uint (Pos.to_uint p)).
    { pose proof (DecimalPos.Unsigned.to_uint_nonnil p).
      destruct (Pos.to_uint p); [contradiction|reflexivity..]. }
    rewrite Hs.
    assert (Hsolid : Numeral.solid
                       (match v with Py2 => isspace_bytes | Py3 => isspace_text end)
                       (String "-" (NilEmpty.string_of_uint (Pos.to_uint p))) = true).
    { cbn [Numeral.solid]. rewrite solid_of_uint. destruct v; reflexivity. }
    rewrite (strip_solid _ _ Hsolid).
    rewrite (unsigned_of_uint _ _ (DecimalPos.Unsigned.to_uint_nonnil p)).
    rewrite DecimalPos.Unsigned.of_to. reflexivity.
Qed.

End int_of_str.

(* ===================================================================== *)
(** * MonitorTCP: construction and run                                    *)
(* ===================================================================== *)

(** A configured host and a port that reads as a positive number are all
    the constructor of the TCP probe asks for. *)
Lemma tcp_init_ok_iff_back {rt : Runtime}
    (name : string) (cfg : config) (self : MonitorTCP.t) (p : string) :
  cfg !! "host" = Some (MonitorTCP.host self) -> MonitorTCP.host self <> "" ->
  cfg !! "port" = Some p -> int py_version p = Ok (MonitorTCP.port self) ->
  0 < MonitorTCP.port self ->
  MonitorTCP.__init__ name cfg = Ok self.
Proof.
  intros Hh Hne Hp Hn Hpos.
  unfold MonitorTCP.__init__, Monitor.__init__, getitem. cbn [rbind].
  rewrite Hh, Hp. cbn [rcatch rbind]. rewrite Hn. cbn [rcatch rbind].
  apply String.eqb_neq in Hne. apply Z.leb_gt in Hpos. rewrite Hne, Hpos.
  destruct self; reflexivity.
Qed.

(** X13: the constructor of the TCP probe returns an instance exactly when
    [host] is configured and not empty and [port] is configured and reads,
    by [int], as a number above zero; the instance holds that host and that
    number. *)
Theorem tcp_init_ok_iff {rt : Runtime} (name : string) (cfg : config) (self : MonitorTCP.t) :
  MonitorTCP.__init__ name cfg = Ok self <->
  exists p,
    cfg !! "host" = Some (MonitorTCP.host self) /\ MonitorTCP.host self <> "" /\
    cfg !! "port" = Some p /\ int py_version p = Ok (MonitorTCP.port self) /\
    0 < MonitorTCP.port self.
Proof.
  split.
  - intros Hinit. destruct (tcp_init_inv name cfg self Hinit) as (p & Hh & Hp & Hn & Hne & Hpos).
    exists p. auto.
  - intros (p & Hh & Hne & Hp & Hn & Hpos).
    exact (tcp_init_ok_iff_back name cfg self p Hh Hne Hp Hn Hpos).
Qed.

(** X14: a [port] that [int] cannot read is reported by the constructor of
    the TCP probe as [Required configuration fields missing], the
    [ValueError] being caught with the missing keys; a port that reads as
    zero or below is refused as [missing or invalid port number]. *)
Theorem tcp_init_port_errors {rt : Runtime} (name : string) (cfg : config) (p : string) :
  cfg !! "port" = Some p ->
  (forall e, int py_version p = Raise e ->
     MonitorTCP.__init__ name cfg = Raise Monitor.missing_fields) /\
  (forall h n, cfg !! "host" = Some h -> h <> "" -> int py_version p = Ok n -> n <= 0 ->
     MonitorTCP.__init__ name cfg = Raise (Exc RuntimeError "missing or invalid port number")).
Proof.
  intros Hp. unfold MonitorTCP.__init__, Monitor.__init__, getitem. cbn [rbind].
  rewrite Hp. split.
  - intros e He. destruct (cfg !! "host"); cbn [rcatch rbind]; [|reflexivity].
    rewrite He. reflexivity.
  - intros h n Hh Hne Hn Hle. rewrite Hh. cbn [rcatch rbind]. rewrite Hn. cbn [rcatch rbind].
    apply String.eqb_neq in Hne. apply Z.leb_le in Hle. rewrite Hne, Hle. reflexivity.
Qed.

(** The port [http] is reported as a missing field, the port [0] as invalid. *)
Lemma tcp_init_port_errors_witness :
  MonitorTCP.__init__ (rt := Sample.linux_py3) "web" SampleMore.config_port_name
    = Raise Monitor.missing_fields /\
  MonitorTCP.__init__ (rt := Sample.linux_py3) "web" SampleMore.config_port_zero
    = Raise (Exc RuntimeError "missing or invalid port number").
Proof.
  split.
  - exact (proj1 (tcp_init_port_errors (rt := Sample.linux_py3) "web"
                    SampleMore.config_port_name "http" eq_refl)
             (invalid_literal "http") eq_refl).
  - refine (proj2 (tcp_init_port_errors (rt := Sample.linux_py3) "web"
                     SampleMore.config_port_zero "0" eq_refl)
              "example.org" 0 eq_refl _ eq_refl _); [discriminate|lia].
Defined.

(** X15: once its socket is created, the run of a TCP probe asks for a
    connection to the configured host and port and has three outcomes: a
    success without message when [settimeout], [connect] and [close] all
    complete; a failure without message, whatever the exception, when
    [settimeout] or [connect] raises; and the exception of [close] itself,
    with nothing recorded, when the connection was made and [close] raises. *)
Theorem tcp_run_outcomes (w : MonitorTCP.world) (self : MonitorTCP.t) :
  MonitorTCP.socket_socket w = None ->
  let connecting :=
    match MonitorTCP.settimeout w with
    | Some e => Some e
    | None => MonitorTCP.connect w (MonitorTCP.host self) (MonitorTCP.port self)
    end in
  (connecting = None -> MonitorTCP.close w = None ->
   succeeded (MonitorTCP.run_test w self) None) /\
  (forall e, connecting = Some e -> failed (MonitorTCP.run_test w self) None) /\
  (forall e, connecting = None -> MonitorTCP.close w = Some e ->
   MonitorTCP.run_test w self = ([], Raise e)).
Proof.
  intros Hs connecting. subst connecting.
  unfold succeeded, failed, MonitorTCP.run_test. rewrite Hs.
  destruct (MonitorTCP.settimeout w) as [e1|].
  - split; [discriminate|]. split; [reflexivity|discriminate].
  - destruct (MonitorTCP.connect w _ _) as [e2|].
    + split; [discriminate|]. split; [reflexivity|discriminate].
    + split; [intros _ ->; reflexivity|].
      split; [discriminate|]. intros e _ ->. reflexivity.
Qed.

(** The three outcomes: a listening port, a refusing port, a socket that
    fails to close. *)
Lemma tcp_run_outcomes_witness :
  succeeded (MonitorTCP.run_test SampleTCP.listening SampleTCP.probe) None /\
  failed (MonitorTCP.run_test SampleTCP.refusing SampleTCP.probe) None /\
  MonitorTCP.run_test SampleMore.close_fails SampleTCP.probe
    = ([], Raise (Exc OSError "[Errno 5] Input/output error")).
Proof.
  split; [|split].
  - exact (proj1 (tcp_run_outcomes SampleTCP.listening SampleTCP.probe eq_refl)
             eq_refl eq_refl).
  - exact (proj1 (proj2 (tcp_run_outcomes SampleTCP.refusing SampleTCP.probe eq_refl))
             _ eq_refl).
  - exact (proj2 (proj2 (tcp_run_outcomes SampleMore.close_fails SampleTCP.probe eq_refl))
             _ eq_refl eq_refl).
Defined.

(** X16: writing the parameters of a constructed TCP probe back into a
    configuration, the port printed by [str], rebuilds the same probe:
    [int] reads back what [str] printed. *)
Theorem tcp_init_round_trip {rt : Runtime}
    (name name' : string) (cfg : config) (self : MonitorTCP.t) :
  MonitorTCP.__init__ name cfg = Ok self ->
  MonitorTCP.__init__ name'
    {[ "host" := fst (MonitorTCP.get_params self) ;
       "port" := str_int (snd (MonitorTCP.get_params self)) ]}
  = Ok self.
Proof.
  intros Hinit.
  destruct (tcp_init_inv name cfg self Hinit) as (p & _ & _ & _ & Hne & Hpos).
  apply tcp_init_ok_iff_back with (p := str_int (MonitorTCP.port self)).
  - cbn [MonitorTCP.get_params fst snd]. apply lookup_insert_eq.
  - exact Hne.
  - cbn [MonitorTCP.get_params fst snd].
    rewrite lookup_insert_ne by discriminate. apply lookup_singleton_eq.
  - apply int_str_int.
  - exact Hpos.
Qed.

(** The sample probe, rebuilt from its parameters. *)
Lemma tcp_init_round_trip_witness :
  MonitorTCP.__init__ (rt := Sample.linux_py3) "again"
    {[ "host" := "example.org" ; "port" := str_int 80 ]} = Ok SampleTCP.probe.
Proof.
  exact (tcp_init_round_trip (rt := Sample.linux_py3) "web" "again"
           SampleTCP.tcp_config SampleTCP.probe eq_refl).
Defined.

(* ===================================================================== *)
(** * MonitorHost: the POSIX commands, and a command that fails           *)
(* ===================================================================== *)

Lemma startswith_not_eq (prefix p other : string) :
  startswith prefix p = true -> startswith prefix other = false ->
  String.eqb p other = false.
Proof.
  intros Hp Ho. destruct (String.eqb_spec p other) as [->|]; [congruence|reflexivity].
Qed.

Lemma startswith_linux_only (p : string) :
  startswith "linux" p = true ->
  startswith "freebsd" p = false /\ startswith "darwin" p = false.
Proof.
  destruct p as [|c p]; [discriminate|]. cbn [startswith].
  destruct (Ascii.eqb_spec "l" c) as [<-|]; [|discriminate].
  intros _. split; reflexivity.
Qed.

(** X17: on FreeBSD and Darwin the command of a constructed ping probe is
    [ping -c1 -t] followed by the configured [ping_ttl] as written (or [5]),
    on Linux [ping -c1 -W] followed by it; both families read the output
    with the same reply pattern and the same time pattern. *)
Theorem host_posix_command {rt : Runtime}
    (name : string) (cfg : config) (self : MonitorHost.t) :
  MonitorHost.__init__ name cfg = Ok self ->
  let ping_ttl := default "5" (cfg !! "ping_ttl") in
  (startswith "freebsd" sys_platform = true \/ startswith "darwin" sys_platform = true ->
   MonitorHost.ping_command self = "ping -c1 -t" +:+ ping_ttl +:+ " %s" /\
   MonitorHost.ping_regexp self = "bytes from" /\
   MonitorHost.time_regexp self = MonitorHost.posix_time_regexp) /\
  (startswith "linux" sys_platform = true ->
   MonitorHost.ping_command self = "ping -c1 -W" +:+ ping_ttl +:+ " %s" /\
   MonitorHost.ping_regexp self = "bytes from" /\
   MonitorHost.time_regexp self = MonitorHost.posix_time_regexp).
Proof.
  intros Hinit ping_ttl.
  destruct (host_init_inv name cfg self Hinit) as (_ & _ & Hd).
  fold ping_ttl in Hd. unfold MonitorHost.platform_dispatch in Hd.
  split.
  - intros Hbsd.
    assert (Hw : String.eqb sys_platform "win32" = false)
      by (destruct Hbsd as [H|H]; exact (startswith_not_eq _ _ "win32" H eq_refl)).
    assert (Hc : String.eqb sys_platform "cygwin" = false)
      by (destruct Hbsd as [H|H]; exact (startswith_not_eq _ _ "cygwin" H eq_refl)).
    rewrite Hw, Hc in Hd. cbn [orb] in Hd.
    assert (Hb : startswith "freebsd" sys_platform || startswith "darwin" sys_platform = true)
      by (destruct Hbsd as [-> | ->]; [reflexivity|apply orb_true_r]).
    rewrite Hb in Hd. injection Hd as -> -> ->. auto.
  - intros Hlinux.
    rewrite (startswith_not_eq _ _ "win32" Hlinux eq_refl),
      (startswith_not_eq _ _ "cygwin" Hlinux eq_refl) in Hd.
    destruct (startswith_linux_only _ Hlinux) as [Hf Hdw].
    rewrite Hf, Hdw, Hlinux in Hd. cbn [orb] in Hd.
    injection Hd as -> -> ->. auto.
Qed.

(** The sample configuration on FreeBSD 13 and on Linux. *)
Lemma host_posix_command_witness :
  MonitorHost.ping_command SampleHost.bsd_ping = "ping -c1 -t5 %s" /\
  MonitorHost.ping_command SampleHost.linux_ping = "ping -c1 -W5 %s".
Proof.
  split.
  - exact (proj1 (proj1 (host_posix_command (rt := Sample.bsd_py2) "ping"
                           SampleHost.host_config SampleHost.bsd_ping eq_refl)
                    (or_introl eq_refl))).
  - exact (proj1 (proj2 (host_posix_command (rt := Sample.linux_py3) "ping"
                           SampleHost.host_config SampleHost.linux_ping eq_refl)
                    eq_refl)).
Defined.

(** X18: when the command line of a ping probe cannot be formatted, or the
    command raises (a missing binary, a non-zero exit status), the run is
    recorded as a failure whose message is the exception itself. *)
Theorem host_run_command_fails {rt : Runtime}
    (self : MonitorHost.t) (w : MonitorHost.world) (e : exc) :
  re_compiles (MonitorHost.ping_regexp self) = true ->
  re_compiles (MonitorHost.time_regexp self) = true ->
  str_mod (MonitorHost.ping_command self) (MonitorHost.host self) = Raise e \/
  (exists line, str_mod (MonitorHost.ping_command self) (MonitorHost.host self) = Ok line /\
                MonitorHost.check_output w (split " " line) = Raise e) ->
  failed (MonitorHost.run_test w self) (Some (Exception e)).
Proof.
  intros Hc1 Hc2 Hfail.
  unfold failed, MonitorHost.run_test, re_compile. rewrite Hc1, Hc2.
  cbn [lift Recorder.bind].
  destruct Hfail as [Hmod | (line & Hmod & Hout)]; rewrite Hmod; cbn [rbind].
  - reflexivity.
  - rewrite Hout. reflexivity.
Qed.

(** A ping that ends with a non-zero status. *)
Lemma host_run_command_fails_witness :
  failed (MonitorHost.run_test (rt := Sample.linux_py3) SampleHost.ping_fails SampleHost.linux_ping)
    (Some (Exception
             (Exc CalledProcessError
                "Command '['ping', '-c1', '-W5', 'example.org']' returned non-zero exit status 2"))).
Proof.
  refine (host_run_command_fails (rt := Sample.linux_py3)
            SampleHost.linux_ping SampleHost.ping_fails _ eq_refl eq_refl _).
  right. exists "ping -c1 -W5 example.org". split; reflexivity.
Defined.

(* ===================================================================== *)
(** * Stripping twice                                                     *)
(* ===================================================================== *)

Section strip_facts.
Variable blank : ascii -> bool.

Lemma rstrip_idempotent (s : string) : rstrip blank (rstrip blank s) = rstrip blank s.
Proof.
  induction s as [|c s IH]; [reflexivity|]. cbn [rstrip].
  destruct (rstrip blank s) as [|c' r] eqn:Hr.
  - destruct (blank c) eqn:Hc; [reflexivity|]. cbn [rstrip]. rewrite Hc. reflexivity.
  - cbn [rstrip]. cbn [rstrip] in IH. rewrite IH. reflexivity.
Qed.

Local Abbreviation starts_solid := (Numeral.starts_solid blank).

(** What [lstrip] returns is empty or starts with a character that is not a
    blank, and [rstrip] keeps that. *)
Lemma lstrip_starts_solid (s : string) : starts_solid (lstrip blank s).
Proof.
  induction s as [|c s IH]; cbn [lstrip]; [exact I|].
  destruct (blank c) eqn:Hc; [exact IH|exact Hc].
Qed.

Lemma rstrip_starts_solid (s : string) : starts_solid s -> starts_solid (rstrip blank s).
Proof.
  destruct s as [|c s]; [trivial|]. cbn [Numeral.starts_solid rstrip]. intros Hc.
  destruct (rstrip blank s); [rewrite Hc|]; exact Hc.
Qed.

Lemma lstrip_of_starts_solid (s : string) : starts_solid s -> lstrip blank s = s.
Proof.
  destruct s as [|c s]; [reflexivity|]. cbn [Numeral.starts_solid lstrip]. intros ->. reflexivity.
Qed.

(** [s.strip().strip()] is [s.strip()]. *)
Lemma strip_idempotent (s : string) : strip blank (strip blank s) = strip blank s.
Proof.
  unfold strip.
  rewrite (lstrip_of_starts_solid _ (rstrip_starts_solid _ (lstrip_starts_solid s))).
  apply rstrip_idempotent.
Qed.

End strip_facts.

Lemma string_cons_neq (c : ascii) (s : string) : String.eqb (String c s) s = false.
Proof.
  apply String.eqb_neq. intros H. apply (f_equal String.length) in H.
  cbn in H. lia.
Qed.

(* ===================================================================== *)
(** * MonitorDNS: the command, the failures, the description              *)
(* ===================================================================== *)

Section dns_command.
Context {rt : Runtime}.

(** The argument list a constructed DNS probe holds. *)
Lemma dns_init_params_inv (name : string) (cfg : config) (self : MonitorDNS.t) :
  MonitorDNS.__init__ name cfg = Ok self ->
  MonitorDNS.params self =
    ([ "dig" ]
     ++ match cfg !! "server" with
        | Some s => if truthy s then [ "@" +:+ s ] else []
        | None => []
        end
     ++ match cfg !! "record_type" with
        | Some ty => [ "-t" ; ty ]
        | None => []
        end
     ++ [ MonitorDNS.path self ; "+short" ])%list.
Proof.
  unfold MonitorDNS.__init__, Monitor.__init__, getitem. cbn [rbind].
  destruct (cfg !! "record") as [record|]; cbn [rcatch rbind]; [|discriminate].
  destruct (String.eqb record ""); [discriminate|].
  intros H. injection H as <-. cbn [MonitorDNS.params MonitorDNS.path].
  destruct (cfg !! "server") as [s|]; [destruct (truthy s)|];
    destruct (cfg !! "record_type"); reflexivity.
Qed.

End dns_command.

(** X19: the run of a constructed DNS probe asks the world for one thing,
    the output of [dig], then [@server] when a server is configured and not
    empty, then [-t] and the record type when one is configured (an empty
    one too), then the record and [+short]: two worlds that answer this
    command alike give the same run. *)
Theorem dns_run_reads_one_command {rt : Runtime}
    (name : string) (cfg : config) (self : MonitorDNS.t) (w1 w2 : MonitorDNS.world) :
  MonitorDNS.__init__ name cfg = Ok self ->
  let argv :=
    ([ "dig" ]
     ++ match cfg !! "server" with
        | Some s => if truthy s then [ "@" +:+ s ] else []
        | None => []
        end
     ++ match cfg !! "record_type" with
        | Some ty => [ "-t" ; ty ]
        | None => []
        end
     ++ [ default "" (cfg !! "record") ; "+short" ])%list in
  MonitorDNS.check_output w1 argv = MonitorDNS.check_output w2 argv ->
  MonitorDNS.run_test w1 self = MonitorDNS.run_test w2 self.
Proof.
  intros Hinit argv Hsame.
  pose proof (dns_init_params_inv name cfg self Hinit) as Hparams.
  destruct (dns_init_inv name cfg self Hinit) as (Hrecord & _).
  assert (Hargv : MonitorDNS.params self = argv).
  { rewrite Hparams. subst argv. rewrite Hrecord. reflexivity. }
  unfold MonitorDNS.run_test. rewrite Hargv, Hsame. reflexivity.
Qed.

(** With an empty server and an empty record type configured, the command
    has no [@] argument and an empty argument after [-t]. *)
Lemma dns_run_reads_one_command_witness :
  MonitorDNS.params SampleMore.probe_blank_server
    = [ "dig" ; "-t" ; "" ; "example.org" ; "+short" ] /\
  MonitorDNS.run_test (rt := Sample.linux_py3)
    {| MonitorDNS.check_output := fun argv =>
         if String.eqb (String.concat " " argv) "dig -t  example.org +short"
         then Ok SampleDNS.address_line
         else Raise (Exc OSError "other command") |}
    SampleMore.probe_blank_server
  = MonitorDNS.run_test (rt := Sample.linux_py3)
      (SampleDNS.prints SampleDNS.address_line) SampleMore.probe_blank_server.
Proof.
  split; [reflexivity|].
  exact (dns_run_reads_one_command (rt := Sample.linux_py3) "dns"
           SampleMore.config_blank_server SampleMore.probe_blank_server _ _
           eq_refl eq_refl).
Defined.

(** X20: when the resolver command raises, or its output does not decode,
    the run of a DNS probe is recorded as a failure whose message names the
    command [dig] and ends with the text of the exception. *)
Theorem dns_run_command_fails {rt : Runtime}
    (self : MonitorDNS.t) (w : MonitorDNS.world) (e : exc) :
  MonitorDNS.check_output w (MonitorDNS.params self) = Raise e \/
  (exists output, MonitorDNS.check_output w (MonitorDNS.params self) = Ok output /\
                  decode_utf8 output = Raise e) ->
  failed (MonitorDNS.run_test w self)
    (Some (Text ("Exception while executing dig: " +:+ exc_str e))).
Proof.
  intros Hfail. unfold failed, MonitorDNS.run_test.
  destruct Hfail as [Hout | (output & Hout & Hdec)]; rewrite Hout.
  - reflexivity.
  - cbn [lift Recorder.bind]. rewrite Hdec. reflexivity.
Qed.

(** A host without [dig], and a resolver that prints a byte that is not
    ASCII to the sample decoder. *)
Lemma dns_run_command_fails_witness :
  failed (MonitorDNS.run_test (rt := Sample.linux_py3) SampleDNS.no_dig SampleDNS.probe_a)
    (Some (Text "Exception while executing dig: [Errno 2] No such file or directory")) /\
  failed (MonitorDNS.run_test (rt := Sample.linux_py3)
            (SampleDNS.prints (String (chr 200) "")) SampleDNS.probe_a)
    (Some (Text "Exception while executing dig: 'utf-8' codec can't decode byte")).
Proof.
  split.
  - exact (dns_run_command_fails (rt := Sample.linux_py3) SampleDNS.probe_a SampleDNS.no_dig
             _ (or_introl eq_refl)).
  - refine (dns_run_command_fails (rt := Sample.linux_py3) SampleDNS.probe_a
              (SampleDNS.prints (String (chr 200) ""))
              (Exc UnicodeDecodeError "'utf-8' codec can't decode byte") (or_intror _)).
    exists (String (chr 200) ""). split; reflexivity.
Defined.

(** X21: the output of the resolver is stripped before it is compared, the
    expected value is not: a DNS probe whose [desired_val] begins or ends
    with a blank records a failure at every run, whatever the resolver
    printed. *)
Theorem dns_padded_desired_val_always_fails {rt : Runtime}
    (self : MonitorDNS.t) (w : MonitorDNS.world) (d : string) :
  MonitorDNS.desired_val self = Some d ->
  strip isspace_text d <> d ->
  exists msg, failed (MonitorDNS.run_test w self) (Some msg).
Proof.
  intros Hd Hpad. unfold failed.
  destruct (MonitorDNS.check_output w (MonitorDNS.params self)) as [output|e] eqn:Hout.
  - destruct (decode_utf8 output) as [text|e] eqn:Hdec.
    + rewrite (dns_run_on_output self w output text Hout Hdec). cbv zeta.
      destruct (String.eqb (strip isspace_text text) "") eqn:Hempty; [eauto|].
      assert (Hun : MonitorDNS.unexpected self (strip isspace_text text) = true).
      { unfold MonitorDNS.unexpected. rewrite Hd.
        assert (Htruthy : truthy d = true).
        { unfold truthy. destruct (String.eqb_spec d ""); [|reflexivity].
          subst d. exfalso. apply Hpad. reflexivity. }
        rewrite Htruthy. cbn [andb]. apply negb_true_iff, String.eqb_neq.
        intros Heq. apply Hpad. rewrite <- Heq. apply strip_idempotent. }
      rewrite Hun. eauto.
    + unfold MonitorDNS.run_test. rewrite Hout. cbn [lift Recorder.bind].
      rewrite Hdec. run_action. eauto.
  - unfold MonitorDNS.run_test. rewrite Hout. run_action. eauto.
Qed.

(** The resolver prints the expected address; the blank that follows it in
    the configuration makes the run a failure. *)
Lemma dns_padded_desired_val_always_fails_witness :
  exists msg,
    failed (MonitorDNS.run_test (rt := Sample.linux_py3)
              (SampleDNS.prints SampleDNS.address_line) SampleMore.probe_padded_val)
      (Some msg).
Proof.
  refine (dns_padded_desired_val_always_fails (rt := Sample.linux_py3)
            SampleMore.probe_padded_val (SampleDNS.prints SampleDNS.address_line)
            "192.0.2.1 " eq_refl _).
  vm_compute. discriminate.
Defined.

(** X22: the description of a DNS probe and its run agree on whether a
    value is expected: [describe] ends its middle with [is resolvable]
    exactly when the comparison of [run_test] is off for every result, and
    otherwise says [resolves to] followed by the value the run compares
    with. *)
Theorem dns_describe_agrees_with_run (self : MonitorDNS.t) :
  (MonitorDNS.end_part self = "is resolvable" <->
   forall result, MonitorDNS.unexpected self result = false) /\
  (forall d, MonitorDNS.desired_val self = Some d -> d <> "" ->
     MonitorDNS.end_part self = "resolves to " +:+ d /\
     forall result, MonitorDNS.unexpected self result = negb (String.eqb result d)).
Proof.
  unfold MonitorDNS.end_part, MonitorDNS.unexpected.
  destruct (MonitorDNS.desired_val self) as [d|].
  - destruct (truthy d) eqn:Ht.
    + split.
      * split; [discriminate|]. intros H. specialize (H (String "x" d)).
        cbn [andb] in H. rewrite string_cons_neq in H. discriminate H.
      * intros d' Hd' _. injection Hd' as <-. split; reflexivity.
    + split.
      * split; reflexivity.
      * intros d' Hd' Hne. injection Hd' as <-. unfold truthy in Ht.
        apply negb_false_iff, String.eqb_eq in Ht. contradiction.
  - split; [split; reflexivity|discriminate].
Qed.

(** The probe with an expected address, and the probe whose expected value
    is empty. *)
Lemma dns_describe_agrees_with_run_witness :
  MonitorDNS.describe SampleDNS.probe_val
    = "Checking that DNS record example.org resolves to 192.0.2.7" /\
  MonitorDNS.describe SampleDNS.probe_empty_val
    = "Checking that DNS record example.org is resolvable" /\
  MonitorDNS.end_part SampleDNS.probe_val = "resolves to 192.0.2.7" /\
  forall result, MonitorDNS.unexpected SampleDNS.probe_empty_val result = false.
Proof.
  split; [reflexivity|]. split; [reflexivity|]. split.
  - refine (proj1 (proj2 (dns_describe_agrees_with_run SampleDNS.probe_val)
                     "192.0.2.7" eq_refl _)).
    discriminate.
  - exact (proj1 (proj1 (dns_describe_agrees_with_run SampleDNS.probe_empty_val)) eq_refl).
Defined.

(* ===================================================================== *)
(** * Invariants of the probes                                            *)
(* ===================================================================== *)

Lemma split_cons (sep : ascii) (s : string) :
  exists field rest, split sep s = field :: rest.
Proof.
  induction s as [|c s (field & rest & IH)]; cbn [split]; [eauto|].
  destruct (Ascii.eqb c sep); [eauto|]. rewrite IH. eauto.
Qed.

Lemma map_result_cons {A B} (f : A -> result B) (x : A) (l : list A) (ys : list B) :
  map_result f (x :: l) = Ok ys -> exists y rest, ys = y :: rest.
Proof.
  cbn [map_result rbind]. destruct (f x); cbn [rbind]; [|discriminate].
  destruct (map_result f l); cbn [rbind]; [|discriminate].
  intros H. injection H as <-. eauto.
Qed.

(** X23: a constructed HTTP probe accepts at least one status code: the
    default list holds 200, and a configured [allowed_codes] gives one code
    for each of its comma-separated fields, of which there is always one
    (an empty [allowed_codes] does not construct). *)
Theorem http_allowed_codes_nonempty {rt : Runtime}
    (name : string) (cfg : config) (self : MonitorHTTP.t) :
  MonitorHTTP.__init__ name cfg = Ok self ->
  exists code rest, MonitorHTTP.allowed_codes self = code :: rest.
Proof.
  intros Hinit.
  destruct (http_init_inv name cfg self Hinit) as (_ & _ & _ & Hcodes).
  destruct (cfg !! "allowed_codes") as [codes|].
  - destruct (split_cons "," codes) as (field & rest & Hsplit).
    rewrite Hsplit in Hcodes. exact (map_result_cons _ _ _ _ Hcodes).
  - rewrite Hcodes. eauto.
Qed.

Lemma http_allowed_codes_nonempty_witness :
  exists code rest, MonitorHTTP.allowed_codes SampleHTTP.probe_pattern = code :: rest.
Proof.
  exact (http_allowed_codes_nonempty (rt := Sample.linux_py3) "web"
           SampleHTTP.config_pattern SampleHTTP.probe_pattern eq_refl).
Defined.

(** X24: whenever the run of a probe returns, its value agrees with the one
    call it made to the recorder: [True] after [record_success], [False]
    after [record_fail]; this holds for the four probes, on either
    interpreter and in every world. *)
Theorem run_value_agrees_with_record {rt : Runtime} :
  (forall w self, consistent (MonitorHTTP.run_test w self)) /\
  (forall w self, consistent (MonitorTCP.run_test w self)) /\
  (forall w self, consistent (MonitorHost.run_test w self)) /\
  (forall w self, consistent (MonitorDNS.run_test w self)).
Proof.
  assert (Hs : forall msg, consistent ([ record_success msg ], Ok true)).
  { intros msg calls b H. injection H as <- <-. eauto. }
  assert (Hf : forall msg, consistent ([ record_fail msg ], Ok false)).
  { intros msg calls b H. injection H as <- <-. eauto. }
  assert (Hr : forall (calls : list call) e, consistent (calls, Raise e)).
  { intros calls e calls' b H. discriminate H. }
  split; [|split; [|split]]; intros w self.
  - destruct (MonitorHTTP.requests_get w (MonitorHTTP.request_of self)) as [r|e] eqn:Hget.
    + rewrite (http_run_on_response self w r Hget). cbv zeta.
      destruct (negb _); [apply Hf|].
      destruct (MonitorHTTP.regexp self) as [re|]; [|apply Hs].
      destruct (re_search re _); [apply Hs|apply Hf].
    + unfold MonitorHTTP.run_test. rewrite Hget. run_action.
      destruct (is_RequestException e); apply Hf.
  - unfold MonitorTCP.run_test.
    destruct (MonitorTCP.socket_socket w); [apply Hr|].
    destruct (MonitorTCP.settimeout w); [apply Hf|].
    destruct (MonitorTCP.connect w _ _); [apply Hf|].
    destruct (MonitorTCP.close w); [apply Hr|apply Hs].
  - unfold MonitorHost.run_test, re_compile.
    destruct (re_compiles (MonitorHost.ping_regexp self)); [|apply Hr].
    destruct (re_compiles (MonitorHost.time_regexp self)); [|apply Hr].
    cbn [lift Recorder.bind].
    destruct (str_mod _ _) as [line|e]; cbn [rbind]; [|apply Hf].
    destruct (MonitorHost.check_output w _) as [output|e]; cbn [rbind]; [|apply Hf].
    destruct (MonitorHost.scan _ _ _ _ _) as [[success pingtime]|e]; [|apply Hf].
    destruct success; [|apply Hf].
    run_action.
    destruct (gt_zero py_version pingtime) as [[|]|e]; cbn; [apply Hs|apply Hs|apply Hr].
  - destruct (MonitorDNS.check_output w (MonitorDNS.params self)) as [output|e] eqn:Hout.
    + destruct (decode_utf8 output) as [text|e] eqn:Hdec.
      * rewrite (dns_run_on_output self w output text Hout Hdec). cbv zeta.
        destruct (String.eqb _ ""); [apply Hf|].
        destruct (MonitorDNS.unexpected self _); [apply Hf|apply Hs].
      * unfold MonitorDNS.run_test. rewrite Hout. cbn [lift Recorder.bind].
        rewrite Hdec. apply Hf.
    + unfold MonitorDNS.run_test. rewrite Hout. apply Hf.
Qed.
